(** * SurfaceFlinger [LayerBase]: transaction state, commit, overlay geometry

    A shallow embedding of [services/surfaceflinger/LayerBase.cpp] (with the
    declarations of [Layer.h]) and the properties of its transaction state,
    commit step, hardware-composer geometry and surface hand-out.

    Conventions.  C++ objects are records; a member function that mutates
    [this] takes the object and returns the new object next to its C++
    result.  Fixed-width integers are [Z] with the conversions written out
    ([to_u32], [to_i32], [to_u8]); [float] is IEEE binary32, taken from the
    Standard Library's executable specification [SpecFloat].  An operation
    that C++ leaves undefined (a [float] converted to an [int] it does not
    fit, a signed [int] result outside [int]) returns [None]. *)

From Stdlib Require Import ZArith Bool List Lia.
From Stdlib Require Import Floats.SpecFloat.
Import ListNotations.

Local Open Scope Z_scope.
Local Open Scope bool_scope.

(** ** Fixed-width integers *)

Definition to_u32 (n : Z) : Z := n mod 2 ^ 32.
Definition to_u8 (n : Z) : Z := n mod 2 ^ 8.

(** Conversion to [int32_t] (two's complement). *)
Definition to_i32 (n : Z) : Z := (n + 2 ^ 31) mod 2 ^ 32 - 2 ^ 31.

Definition INT32_MAX : Z := 2 ^ 31 - 1.
Definition INT32_MIN : Z := - 2 ^ 31.

(** [int] arithmetic: C++ leaves a signed result outside [int] undefined,
    which is [None]. *)
Definition int_add (a b : Z) : option Z :=
  if (INT32_MIN <=? a + b) && (a + b <=? INT32_MAX) then Some (a + b) else None.
Definition int_sub (a b : Z) : option Z :=
  if (INT32_MIN <=? a - b) && (a - b <=? INT32_MAX) then Some (a - b) else None.

(** Sequencing of steps that may be undefined. *)
Notation "x <- e1 ;; e2" :=
  (match e1 with Some x => e2 | None => None end)
  (at level 61, e1 at next level, right associativity).

(** ** IEEE binary32 [float] *)

Module Float32.

Definition prec : Z := 24.
Definition emax : Z := 128.

Definition float : Type := spec_float.

Definition zero : float := S754_zero false.
Definition one : float := SFone prec emax.

(** [float(n)] for an integer [n]: round to nearest, ties to even. *)
Definition of_int (n : Z) : float := binary_normalize prec emax n 0 false.

Definition mul : float -> float -> float := SFmul prec emax.
Definition div : float -> float -> float := SFdiv prec emax.

(** The C++ [==] on floats: false as soon as one side is a NaN. *)
Definition eqb : float -> float -> bool := SFeqb.

Definition is_nan (x : float) : bool :=
  match x with S754_nan => true | _ => false end.

Definition is_finite (x : float) : bool :=
  match x with S754_zero _ | S754_finite _ _ _ => true | _ => false end.

(** The least integer above [(-1)^s * m * 2^e]. *)
Definition ceil_Z (s : bool) (m : positive) (e : Z) : Z :=
  if 0 <=? e then cond_Zopp s (Zpos m * 2 ^ e)
  else - (cond_Zopp (negb s) (Zpos m) / 2 ^ (- e)).

(** [ceilf]. *)
Definition ceilf (x : float) : float :=
  match x with
  | S754_finite s m e =>
      if 0 <=? e then x else binary_normalize prec emax (ceil_Z s m e) 0 s
  | _ => x
  end.

(** The integer part of a finite [x], toward zero (0 for the others). *)
Definition trunc_Z (x : float) : Z :=
  match x with
  | S754_finite s m e =>
      if 0 <=? e then cond_Zopp s (Zpos m * 2 ^ e)
      else cond_Zopp s (Zpos m / 2 ^ (- e))
  | _ => 0
  end.

(** [int(x)]: truncation toward zero.  C++ leaves the conversion undefined
    for a NaN, for an infinity and for a value whose integer part is not
    an [int]: [None]. *)
Definition to_int (x : float) : option Z :=
  match x with
  | S754_zero _ => Some 0
  | S754_finite _ _ _ =>
      let n := trunc_Z x in
      if (INT32_MIN <=? n) && (n <=? INT32_MAX) then Some n else None
  | _ => None
  end.

End Float32.

Definition float : Type := Float32.float.


(** ** Rectangles *)

(** Modelled from the spec: [Rect] ([ui/Rect.h]) is not among the sources.
    A rectangle has four integer edges; it is empty when its width or its
    height is not positive; [makeInvalid] gives the rectangle (0,0,-1,-1);
    intersection takes the larger left/top and the smaller right/bottom.
    Edges are [int32_t] in C++; edge arithmetic is modelled in [Z]. *)
Record Rect : Type := mkRect { left : Z; top : Z; right : Z; bottom : Z }.

(** [Rect(w, h)]: the arguments are converted to [int32_t]. *)
Definition Rect_wh (w h : Z) : Rect := mkRect 0 0 (to_i32 w) (to_i32 h).

Definition Rect_invalid : Rect := mkRect 0 0 (-1) (-1).

Definition width (r : Rect) : Z := right r - left r.
Definition height (r : Rect) : Z := bottom r - top r.

Definition isEmpty (r : Rect) : bool := (width r <=? 0) || (height r <=? 0).

Definition Rect_eqb (a b : Rect) : bool :=
  (left a =? left b) && (top a =? top b) &&
  (right a =? right b) && (bottom a =? bottom b).

Definition intersect (a b : Rect) : Rect :=
  mkRect (Z.max (left a) (left b)) (Z.max (top a) (top b))
         (Z.min (right a) (right b)) (Z.min (bottom a) (bottom b)).

(** [inner] lies within [outer], edge by edge. *)
Definition Rect_within (inner outer : Rect) : Prop :=
  left outer <= left inner /\ top outer <= top inner /\
  right inner <= right outer /\ bottom inner <= bottom outer.

(** ** Missing declarations, taken as parameters *)

(** The enumerators that [LayerBase.cpp] reads from headers outside the
    sources ([LayerBase.h], [SurfaceFlinger.h], [layer_state_t],
    [ISurfaceComposerClient], [Transform.h], [window.h]).  Each one is a
    bit mask; the development never depends on its value. *)
Class Constants : Type := {
  eTransactionNeeded : Z;
  eDontUpdateGeometryState : Z;
  eVisibleRegion : Z;
  eLayerHidden : Z;
  eHidden : Z;
  eNonPremultiplied : Z;
  SCALE : Z;
  ROT_INVALID : Z;
  NATIVE_WINDOW_TRANSFORM_FLIP_H : Z;
  NATIVE_WINDOW_TRANSFORM_FLIP_V : Z;
  NATIVE_WINDOW_TRANSFORM_ROT_90 : Z
}.

(** The member functions of [Transform] ([Transform.h]) that
    [LayerBase.cpp] calls.  [tr_set] is [set(tx, ty)], [tr_set_matrix] is
    [set(a, b, c, d)], [tr_transform] is [transform(const Rect&)]. *)
Class TransformOps (Transform : Type) : Type := {
  tr_default : Transform;
  tr_tx : Transform -> float;
  tr_ty : Transform -> float;
  tr_set : Transform -> float -> float -> Transform;
  tr_set_matrix : Transform -> float -> float -> float -> float -> Transform;
  tr_getType : Transform -> Z;
  tr_preserveRects : Transform -> bool;
  tr_getOrientation : Transform -> Z;
  tr_transform : Transform -> Rect -> Rect;
  tr_inverse : Transform -> Transform
}.

(** [Region] ([ui/Region.h]): only its default (empty) value is used. *)
Class RegionOps (Region : Type) : Type := {
  Region_empty : Region
}.

(** The blending modes of the hardware composer ([hwcomposer_defs.h]). *)
Inductive blending_t : Type :=
| HWC_BLENDING_NONE
| HWC_BLENDING_PREMULT
| HWC_BLENDING_COVERAGE.

(** [layer_state_t::matrix22_t]. *)
Record matrix22_t : Type := mkMatrix22 {
  dsdx : float; dtdx : float; dsdy : float; dtdy : float
}.

Section RectTransform.
Context {C : Constants}.

(** Modelled from the spec: [Rect::transform(xform, width, height)]
    ([ui/Rect.cpp]) is not among the sources.  It applies the flips and
    then the 90 degree rotation of a buffer transform to a rectangle
    inside a [width] x [height] area (spec 4.3, step 4). *)
Definition Rect_transform (r : Rect) (xform width' height' : Z) : Rect :=
  let r1 :=
    if Z.land xform NATIVE_WINDOW_TRANSFORM_FLIP_H =? 0 then r
    else mkRect (width' - right r) (top r) (width' - left r) (bottom r) in
  let r2 :=
    if Z.land xform NATIVE_WINDOW_TRANSFORM_FLIP_V =? 0 then r1
    else mkRect (left r1) (height' - bottom r1) (right r1) (height' - top r1) in
  if Z.land xform NATIVE_WINDOW_TRANSFORM_ROT_90 =? 0 then r2
  else mkRect (height' - bottom r2) (left r2) (height' - top r2) (right r2).
End RectTransform.

(** ** The layer state *)

Section Model.
Context {C : Constants}.
Context {Transform : Type} {TO : TransformOps Transform}.
Context {Region : Type} {RO : RegionOps Region}.

(** [LayerBase::Geometry]: [w] and [h] are [uint32_t]. *)
Record Geometry : Type := mkGeometry { w : Z; h : Z; crop : Rect }.

Definition Geometry_eqb (a b : Geometry) : bool :=
  (w a =? w b) && (h a =? h b) && Rect_eqb (crop a) (crop b).

(** [LayerBase::State].  [z] and [layerStack] are [uint32_t], [alpha] is
    [uint8_t], [sequence] is [int32_t]. *)
Record State : Type := mkState {
  active : Geometry;
  requested : Geometry;
  z : Z;
  layerStack : Z;
  alpha : Z;
  flags : Z;
  sequence : Z;
  transform : Transform;
  transparentRegion : Region
}.

Definition set_active (s : State) (g : Geometry) : State :=
  mkState g (requested s) (z s) (layerStack s) (alpha s) (flags s)
          (sequence s) (transform s) (transparentRegion s).
Definition set_requested (s : State) (g : Geometry) : State :=
  mkState (active s) g (z s) (layerStack s) (alpha s) (flags s)
          (sequence s) (transform s) (transparentRegion s).
Definition set_z (s : State) (v : Z) : State :=
  mkState (active s) (requested s) v (layerStack s) (alpha s) (flags s)
          (sequence s) (transform s) (transparentRegion s).
Definition set_layerStack (s : State) (v : Z) : State :=
  mkState (active s) (requested s) (z s) v (alpha s) (flags s)
          (sequence s) (transform s) (transparentRegion s).
Definition set_alpha (s : State) (v : Z) : State :=
  mkState (active s) (requested s) (z s) (layerStack s) v (flags s)
          (sequence s) (transform s) (transparentRegion s).
Definition set_flags (s : State) (v : Z) : State :=
  mkState (active s) (requested s) (z s) (layerStack s) (alpha s) v
          (sequence s) (transform s) (transparentRegion s).
Definition set_sequence (s : State) (v : Z) : State :=
  mkState (active s) (requested s) (z s) (layerStack s) (alpha s) (flags s)
          v (transform s) (transparentRegion s).
Definition set_transform (s : State) (t : Transform) : State :=
  mkState (active s) (requested s) (z s) (layerStack s) (alpha s) (flags s)
          (sequence s) t (transparentRegion s).
Definition set_transparentRegion (s : State) (r : Region) : State :=
  mkState (active s) (requested s) (z s) (layerStack s) (alpha s) (flags s)
          (sequence s) (transform s) r.

(** [sequence++] on the [int32_t] field. *)
Definition bump_sequence (s : State) : State :=
  set_sequence s (to_i32 (sequence s + 1)).

(** The data members of a [LayerBase] object that the modelled functions
    touch.  [isOpaque] stands for the result of the virtual
    [isOpaque()]. *)
Record LayerBase : Type := mkLayerBase {
  contentDirty : bool;
  mFiltering : bool;
  mNeedsFiltering : bool;
  mTransactionFlags : Z;
  mPremultipliedAlpha : bool;
  mCurrentState : State;
  mDrawingState : State;
  isOpaque : bool
}.

Definition set_mCurrentState (l : LayerBase) (s : State) : LayerBase :=
  mkLayerBase (contentDirty l) (mFiltering l) (mNeedsFiltering l)
              (mTransactionFlags l) (mPremultipliedAlpha l)
              s (mDrawingState l) (isOpaque l).
Definition set_mDrawingState (l : LayerBase) (s : State) : LayerBase :=
  mkLayerBase (contentDirty l) (mFiltering l) (mNeedsFiltering l)
              (mTransactionFlags l) (mPremultipliedAlpha l)
              (mCurrentState l) s (isOpaque l).
Definition set_mTransactionFlags (l : LayerBase) (v : Z) : LayerBase :=
  mkLayerBase (contentDirty l) (mFiltering l) (mNeedsFiltering l)
              v (mPremultipliedAlpha l)
              (mCurrentState l) (mDrawingState l) (isOpaque l).
Definition set_mPremultipliedAlpha (l : LayerBase) (b : bool) : LayerBase :=
  mkLayerBase (contentDirty l) (mFiltering l) (mNeedsFiltering l)
              (mTransactionFlags l) b
              (mCurrentState l) (mDrawingState l) (isOpaque l).
Definition set_contentDirty (l : LayerBase) (b : bool) : LayerBase :=
  mkLayerBase b (mFiltering l) (mNeedsFiltering l)
              (mTransactionFlags l) (mPremultipliedAlpha l)
              (mCurrentState l) (mDrawingState l) (isOpaque l).
Definition set_mNeedsFiltering (l : LayerBase) (b : bool) : LayerBase :=
  mkLayerBase (contentDirty l) (mFiltering l) b
              (mTransactionFlags l) (mPremultipliedAlpha l)
              (mCurrentState l) (mDrawingState l) (isOpaque l).

(** The constructor.  It leaves the scalar fields of both states
    uninitialised ([initStates] assigns them); they are 0 here.
    [Transform] and [Region] are default-constructed. *)
Definition State_default : State :=
  mkState (mkGeometry 0 0 (mkRect 0 0 0 0)) (mkGeometry 0 0 (mkRect 0 0 0 0))
          0 0 0 0 0 tr_default Region_empty.

Definition LayerBase_new (opaque : bool) : LayerBase :=
  mkLayerBase false false false 0 true State_default State_default opaque.

Definition initStates (l : LayerBase) (w' h' flags' : Z) : LayerBase :=
  let layerFlags := if Z.land flags' eHidden =? 0 then 0 else eLayerHidden in
  let l1 := if Z.land flags' eNonPremultiplied =? 0 then l
            else set_mPremultipliedAlpha l false in
  let cur := mCurrentState l1 in
  let act := mkGeometry w' h' Rect_invalid in
  let cur' :=
    mkState act act 0 0 255 layerFlags 0
            (tr_set (transform cur) Float32.zero Float32.zero)
            (transparentRegion cur) in
  set_mDrawingState (set_mCurrentState l1 cur') cur'.

Definition commitTransaction (l : LayerBase) : LayerBase :=
  set_mDrawingState l (mCurrentState l).

(** [android_atomic_or]: the old value is returned. *)
Definition setTransactionFlags (l : LayerBase) (flags' : Z) : Z * LayerBase :=
  (mTransactionFlags l,
   set_mTransactionFlags l (Z.lor (mTransactionFlags l) flags')).

(** [android_atomic_and(~flags, ...) & flags]. *)
Definition getTransactionFlags (l : LayerBase) (flags' : Z) : Z * LayerBase :=
  (Z.land (mTransactionFlags l) flags',
   set_mTransactionFlags l (Z.land (mTransactionFlags l) (Z.lnot flags'))).

Definition requestTransaction (l : LayerBase) : bool * LayerBase :=
  let '(old, l') := setTransactionFlags l eTransactionNeeded in
  (Z.land old eTransactionNeeded =? 0, l').

Definition forceVisibilityTransaction (l : LayerBase) : LayerBase :=
  snd (requestTransaction
         (set_mCurrentState l (bump_sequence (mCurrentState l)))).

(** *** State mutators *)

Definition setPosition (l : LayerBase) (x y : float) : bool * LayerBase :=
  let cur := mCurrentState l in
  if Float32.eqb (tr_tx (transform cur)) x && Float32.eqb (tr_ty (transform cur)) y
  then (false, l)
  else
    let cur1 := bump_sequence cur in
    let cur2 := set_transform cur1 (tr_set (transform cur1) x y) in
    (true, snd (requestTransaction (set_mCurrentState l cur2))).

Definition setLayer (l : LayerBase) (z' : Z) : bool * LayerBase :=
  let cur := mCurrentState l in
  if z cur =? z' then (false, l)
  else
    let cur1 := bump_sequence cur in
    let cur2 := set_z cur1 z' in
    (true, snd (requestTransaction (set_mCurrentState l cur2))).

Definition setSize (l : LayerBase) (w' h' : Z) : bool * LayerBase :=
  let cur := mCurrentState l in
  if (w (requested cur) =? w') && (h (requested cur) =? h') then (false, l)
  else
    let cur1 := set_requested cur (mkGeometry w' h' (crop (requested cur))) in
    (true, snd (requestTransaction (set_mCurrentState l cur1))).

Definition setAlpha (l : LayerBase) (alpha' : Z) : bool * LayerBase :=
  let cur := mCurrentState l in
  if alpha cur =? alpha' then (false, l)
  else
    let cur1 := bump_sequence cur in
    let cur2 := set_alpha cur1 alpha' in
    (true, snd (requestTransaction (set_mCurrentState l cur2))).

Definition setMatrix (l : LayerBase) (matrix : matrix22_t) : bool * LayerBase :=
  let cur1 := bump_sequence (mCurrentState l) in
  let cur2 :=
    set_transform cur1
      (tr_set_matrix (transform cur1)
         (dsdx matrix) (dsdy matrix) (dtdx matrix) (dtdy matrix)) in
  (true, snd (requestTransaction (set_mCurrentState l cur2))).

Definition setTransparentRegionHint (l : LayerBase) (transparent : Region)
  : bool * LayerBase :=
  let cur1 := bump_sequence (mCurrentState l) in
  let cur2 := set_transparentRegion cur1 transparent in
  (true, snd (requestTransaction (set_mCurrentState l cur2))).

(** [flags'] and [mask] are [uint8_t]; [~mask] is computed on [int] and the
    whole expression is converted to [uint32_t]. *)
Definition newFlags (cur flags' mask : Z) : Z :=
  to_u32 (Z.lor (Z.land cur (Z.lnot mask)) (Z.land flags' mask)).

Definition setFlags (l : LayerBase) (flags' mask : Z) : bool * LayerBase :=
  let cur := mCurrentState l in
  let nf := newFlags (flags cur) flags' mask in
  if flags cur =? nf then (false, l)
  else
    let cur1 := bump_sequence cur in
    let cur2 := set_flags cur1 nf in
    (true, snd (requestTransaction (set_mCurrentState l cur2))).

Definition setCrop (l : LayerBase) (crop' : Rect) : bool * LayerBase :=
  let cur := mCurrentState l in
  if Rect_eqb (crop (requested cur)) crop' then (false, l)
  else
    let cur1 := bump_sequence cur in
    let cur2 :=
      set_requested cur1
        (mkGeometry (w (requested cur1)) (h (requested cur1)) crop') in
    (true, snd (requestTransaction (set_mCurrentState l cur2))).

Definition setLayerStack (l : LayerBase) (layerStack' : Z) : bool * LayerBase :=
  let cur := mCurrentState l in
  if layerStack cur =? layerStack' then (false, l)
  else
    let cur1 := bump_sequence cur in
    let cur2 := set_layerStack cur1 layerStack' in
    (true, snd (requestTransaction (set_mCurrentState l cur2))).

(** *** The commit step *)

(** Whether [doTransaction] recomputes the filtering flag to [true] for a
    transform: [!preserveRects() || (type >= Transform::SCALE)], where
    [type] is the [uint8_t] copy of [getType()]. *)
Definition transformNeedsFiltering (t : Transform) : bool :=
  let type := to_u8 (tr_getType t) in
  negb (tr_preserveRects t) || (SCALE <=? type).

Definition doTransaction (l : LayerBase) (flags' : Z) : Z * LayerBase :=
  let front := mDrawingState l in
  let l1 :=
    if Z.land flags' eDontUpdateGeometryState =? 0
    then set_mCurrentState l
           (set_active (mCurrentState l) (requested (mCurrentState l)))
    else l in
  let temp := mCurrentState l1 in
  let flags1 :=
    if Geometry_eqb (active front) (active temp) then flags'
    else Z.lor flags' eVisibleRegion in
  let '(flags2, l2) :=
    if sequence temp =? sequence front then (flags1, l1)
    else (Z.lor flags1 eVisibleRegion,
          set_mNeedsFiltering (set_contentDirty l1 true)
            (transformNeedsFiltering (transform temp))) in
  (flags2, commitTransaction l2).

(** *** Geometry *)

(** What the modelled functions read from a [DisplayDevice]. *)
Record DisplayDevice : Type := mkDisplayDevice {
  getViewport : Rect;
  getTransform : Transform
}.

Definition computeBounds (l : LayerBase) : Rect :=
  let s := mDrawingState l in
  let win := Rect_wh (w (active s)) (h (active s)) in
  if negb (isEmpty (crop (active s))) then intersect win (crop (active s))
  else win.

(** [latchBuffer] of the base class ignores its argument and returns a
    default-constructed region. *)
Definition latchBuffer (l : LayerBase) (recomputeVisibleRegions : bool)
  : Region * LayerBase :=
  (Region_empty, l).

Definition getContentCrop (l : LayerBase) : Rect :=
  let s := mDrawingState l in
  Rect_wh (w (active s)) (h (active s)).

Definition getContentTransform (l : LayerBase) : Z := 0.

(** The window crop of [computeCrop] once it is clipped: transformed to
    layer-stack space, intersected with the viewport, transformed back and
    constrained to the window's bounds. *)
Definition clippedActiveCrop (s : State) (viewport : Rect) : Rect :=
  let activeCrop := tr_transform (transform s) (crop (active s)) in
  let activeCrop := intersect activeCrop viewport in
  let activeCrop := tr_transform (tr_inverse (transform s)) activeCrop in
  intersect activeCrop (Rect_wh (w (active s)) (h (active s))).

(** [int(ceilf(n * scale))] for an [int] [n] and a [float] [scale];
    [None] where the conversion to [int] is undefined. *)
Definition inset (n : Z) (scale : float) : option Z :=
  Float32.to_int (Float32.ceilf (Float32.mul (Float32.of_int n) scale)).

(** The body of [computeCrop], given the results of the two virtual calls
    [getContentCrop()] and [getContentTransform()].  The insets and the
    edges are [int]: the result is [None] where one of the conversions or
    one of the [int] operations is undefined. *)
Definition computeCrop_body (contentCrop : Rect) (contentTransform : Z)
  (s : State) (viewport : Rect) : option Rect :=
  let crop0 := contentCrop in
  let activeCrop := clippedActiveCrop s viewport in
  if negb (isEmpty activeCrop) then
    let rot :=
      negb (Z.land contentTransform NATIVE_WINDOW_TRANSFORM_ROT_90 =? 0) in
    let invTransform :=
      if rot
      then Z.lxor contentTransform
             (Z.lor NATIVE_WINDOW_TRANSFORM_FLIP_V NATIVE_WINDOW_TRANSFORM_FLIP_H)
      else contentTransform in
    let winWidth := if rot then to_i32 (h (active s)) else to_i32 (w (active s)) in
    let winHeight := if rot then to_i32 (w (active s)) else to_i32 (h (active s)) in
    let winCrop :=
      Rect_transform activeCrop invTransform
        (to_i32 (w (active s))) (to_i32 (h (active s))) in
    let xScale :=
      Float32.div (Float32.of_int (width crop0)) (Float32.of_int winWidth) in
    let yScale :=
      Float32.div (Float32.of_int (height crop0)) (Float32.of_int winHeight) in
    insetL <- inset (left winCrop) xScale ;;
    insetT <- inset (top winCrop) yScale ;;
    fromRight <- int_sub winWidth (right winCrop) ;;
    insetR <- inset fromRight xScale ;;
    fromBottom <- int_sub winHeight (bottom winCrop) ;;
    insetB <- inset fromBottom yScale ;;
    left' <- int_add (left crop0) insetL ;;
    top' <- int_add (top crop0) insetT ;;
    right' <- int_sub (right crop0) insetR ;;
    bottom' <- int_sub (bottom crop0) insetB ;;
    Some (mkRect left' top' right' bottom')
  else Some crop0.

Definition computeCrop (l : LayerBase) (hw : DisplayDevice) : option Rect :=
  computeCrop_body (getContentCrop l) (getContentTransform l)
    (mDrawingState l) (getViewport hw).

(** *** The hardware-composer descriptor *)

(** Modelled from the spec: [HWComposer::HWCLayerInterface]
    ([DisplayHardware/HWComposer.h]) is not among the sources.  The
    descriptor holds a transform, a blending mode, a frame and a crop
    (spec 4.4); each setter assigns its field, and [setDefaultState]
    resets the transform to 0 and the blending to none.  The crop is what
    [setCrop] was given, [None] where C++ leaves that value undefined. *)
Record HWCLayer : Type := mkHWCLayer {
  hwc_transform : Z;
  hwc_blending : blending_t;
  hwc_frame : Rect;
  hwc_crop : option Rect
}.

Definition HWC_setDefaultState (y : HWCLayer) : HWCLayer :=
  mkHWCLayer 0 HWC_BLENDING_NONE (hwc_frame y) (hwc_crop y).
Definition HWC_setTransform (y : HWCLayer) (t : Z) : HWCLayer :=
  mkHWCLayer t (hwc_blending y) (hwc_frame y) (hwc_crop y).
Definition HWC_setBlending (y : HWCLayer) (b : blending_t) : HWCLayer :=
  mkHWCLayer (hwc_transform y) b (hwc_frame y) (hwc_crop y).
Definition HWC_setFrame (y : HWCLayer) (r : Rect) : HWCLayer :=
  mkHWCLayer (hwc_transform y) (hwc_blending y) r (hwc_crop y).
Definition HWC_setCrop (y : HWCLayer) (r : option Rect) : HWCLayer :=
  mkHWCLayer (hwc_transform y) (hwc_blending y) (hwc_frame y) r.

Definition setGeometry (l : LayerBase) (hw : DisplayDevice) (layer : HWCLayer)
  : HWCLayer :=
  let layer := HWC_setDefaultState layer in
  let s := mDrawingState l in
  let finalTransform := tr_getOrientation (transform s) in
  let layer :=
    if Z.land finalTransform ROT_INVALID =? 0
    then HWC_setTransform layer finalTransform
    else HWC_setTransform layer 0 in
  let layer :=
    if negb (isOpaque l) || negb (alpha s =? 255)
    then HWC_setBlending layer
           (if mPremultipliedAlpha l then HWC_BLENDING_PREMULT
            else HWC_BLENDING_COVERAGE)
    else layer in
  let frame := tr_transform (transform s) (computeBounds l) in
  let frame := intersect frame (getViewport hw) in
  let layer := HWC_setFrame layer (tr_transform (getTransform hw) frame) in
  HWC_setCrop layer (computeCrop l hw).

Definition isVisible (l : LayerBase) : bool :=
  let s := mDrawingState l in
  (Z.land (flags s) eLayerHidden =? 0) && negb (alpha s =? 0).

(** *** The client-facing mutation surface *)

(** One constructor per mutator, with its arguments. *)
Inductive Mutator : Type :=
| SetPosition (x y : float)
| SetLayer (z' : Z)
| SetSize (w' h' : Z)
| SetAlpha (alpha' : Z)
| SetMatrix (matrix : matrix22_t)
| SetTransparentRegionHint (transparent : Region)
| SetFlags (flags' mask : Z)
| SetCrop (crop' : Rect)
| SetLayerStack (layerStack' : Z).

Definition call (l : LayerBase) (m : Mutator) : bool * LayerBase :=
  match m with
  | SetPosition x y => setPosition l x y
  | SetLayer z' => setLayer l z'
  | SetSize w' h' => setSize l w' h'
  | SetAlpha alpha' => setAlpha l alpha'
  | SetMatrix matrix => setMatrix l matrix
  | SetTransparentRegionHint transparent => setTransparentRegionHint l transparent
  | SetFlags flags' mask => setFlags l flags' mask
  | SetCrop crop' => setCrop l crop'
  | SetLayerStack layerStack' => setLayerStack l layerStack'
  end.

(** A run of mutator calls, results dropped. *)
Definition callAll (l : LayerBase) (ms : list Mutator) : LayerBase :=
  fold_left (fun l m => snd (call l m)) ms l.

(** The mutators that compare before they write. *)
Definition compares (m : Mutator) : bool :=
  match m with
  | SetMatrix _ | SetTransparentRegionHint _ => false
  | _ => true
  end.

(** The mutators whose write path executes [sequence++]. *)
Definition bumps (m : Mutator) : bool :=
  match m with
  | SetSize _ _ => false
  | _ => true
  end.

(** The argument of a mutator equals the value the pending snapshot
    holds: the translation compares equal, the scalar or rectangle is the
    same, the masked flag bits agree, and for the two setters without a
    comparison the assignment would write back what is there. *)
Definition sameAsPending (s : State) (m : Mutator) : Prop :=
  match m with
  | SetPosition x y =>
      Float32.eqb (tr_tx (transform s)) x = true /\
      Float32.eqb (tr_ty (transform s)) y = true
  | SetLayer z' => z s = z'
  | SetSize w' h' => w (requested s) = w' /\ h (requested s) = h'
  | SetAlpha alpha' => alpha s = alpha'
  | SetMatrix matrix =>
      tr_set_matrix (transform s)
        (dsdx matrix) (dsdy matrix) (dtdx matrix) (dtdy matrix) = transform s
  | SetTransparentRegionHint transparent => transparentRegion s = transparent
  | SetFlags flags' mask => Z.land flags' mask = Z.land (flags s) mask
  | SetCrop crop' => crop (requested s) = crop'
  | SetLayerStack layerStack' => layerStack s = layerStack'
  end.

(** No coordinate of a [setPosition] argument is a NaN. *)
Definition comparable (m : Mutator) : Prop :=
  match m with
  | SetPosition x y => Float32.is_nan x = false /\ Float32.is_nan y = false
  | _ => True
  end.

(** The arguments fit the parameter types of the mutator: [uint32_t] for
    [setLayer], [setSize] and [setLayerStack], [uint8_t] for [setAlpha] and
    [setFlags]. *)
Definition fitsParameters (m : Mutator) : Prop :=
  match m with
  | SetLayer z' => 0 <= z' < 2 ^ 32
  | SetSize w' h' => 0 <= w' < 2 ^ 32 /\ 0 <= h' < 2 ^ 32
  | SetAlpha alpha' => 0 <= alpha' < 2 ^ 8
  | SetFlags flags' mask => 0 <= flags' < 2 ^ 8 /\ 0 <= mask < 2 ^ 8
  | SetLayerStack layerStack' => 0 <= layerStack' < 2 ^ 32
  | _ => True
  end.

(** A transaction is marked pending: every bit of [eTransactionNeeded] is
    set in [mTransactionFlags]. *)
Definition transactionPending (l : LayerBase) : Prop :=
  Z.land (mTransactionFlags l) eTransactionNeeded = eTransactionNeeded.

End Model.

Arguments State : clear implicits.
Arguments LayerBase : clear implicits.
Arguments DisplayDevice : clear implicits.
Arguments Mutator : clear implicits.


(** ** [LayerBaseClient] *)

(** How a call ends: it returns, or a [LOG_ALWAYS_FATAL_IF] fires and the
    process aborts. *)
Inductive Outcome (A : Type) : Type :=
| Returned (a : A)
| Aborted.

Arguments Returned {A} a.
Arguments Aborted {A}.

(** The surface object made by the virtual [createSurface()] and its
    [asBinder()]. *)
Class SurfaceOps (ISurface IBinder : Type) : Type := {
  asBinder : ISurface -> IBinder
}.

Section Client.
Context {Transform Region ISurface IBinder : Type}.
Context {SO : SurfaceOps ISurface IBinder}.

Record LayerBaseClient : Type := mkLayerBaseClient {
  base : LayerBase Transform Region;
  mHasSurface : bool;
  mClientSurfaceBinder : option IBinder
}.

(** The constructor: [mHasSurface(false)], a null binder. *)
Definition LayerBaseClient_new (b : LayerBase Transform Region)
  : LayerBaseClient :=
  mkLayerBaseClient b false None.

(** [getSurface]; [createSurface] is the virtual factory of the layer. *)
Definition getSurface (createSurface : LayerBaseClient -> ISurface)
  (c : LayerBaseClient) : Outcome (ISurface * LayerBaseClient) :=
  if mHasSurface c then Aborted
  else
    let c1 := mkLayerBaseClient (base c) true (mClientSurfaceBinder c) in
    let s := createSurface c1 in
    Returned (s, mkLayerBaseClient (base c1) (mHasSurface c1) (Some (asBinder s))).

Definition getSurfaceBinder (c : LayerBaseClient) : option IBinder :=
  mClientSurfaceBinder c.

End Client.

Arguments LayerBaseClient : clear implicits.

(** ** The buffer-backed [Layer]: frame latch *)

Module Layer.

(** What the producer attaches to a queued buffer. *)
Record BufferItem : Type := mkBufferItem {
  buf_handle : Z;
  buf_crop : Rect;
  buf_transform : Z;
  buf_timestamp : Z
}.

Section Latch.
Context {Region : Type} {RO : RegionOps Region}.

(** Modelled from the spec: [Layer.cpp] is not among the sources; [Layer.h]
    declares the counter [mQueuedFrames], an [int32_t], and the per-buffer
    members only.  Following spec 3 and 4.5: the layer keeps the count of
    frames produced and not yet latched, the buffers the producer has
    queued (newest last), and the handle, crop, transform and timestamp of
    the latched buffer. *)
Record t : Type := mkLayer {
  mQueuedFrames : Z;
  queued : list BufferItem;
  mActiveBuffer : option Z;
  mCurrentCrop : Rect;
  mCurrentTransform : Z;
  mTimestamp : Z;
  wake : bool
}.

(** The producer queues a buffer (its side of the buffer queue). *)
Definition queueBuffer (l : t) (b : BufferItem) : t :=
  mkLayer (mQueuedFrames l) (queued l ++ [b]) (mActiveBuffer l)
          (mCurrentCrop l) (mCurrentTransform l) (mTimestamp l) (wake l).

(** Modelled from the spec: [onFrameAvailable] only increments the pending
    counter and triggers the wake signal (spec 4.5).  The increment is
    atomic, on the [int32_t] counter. *)
Definition onFrameAvailable (l : t) : t :=
  mkLayer (to_i32 (mQueuedFrames l + 1)) (queued l) (mActiveBuffer l)
          (mCurrentCrop l) (mCurrentTransform l) (mTimestamp l) true.

(** Modelled from the spec: [latchBuffer] is a no-op returning an empty
    region when the counter is zero; otherwise it adopts the most recently
    produced buffer, drops the older ones, decrements the counter by one
    and refreshes crop, transform and timestamp (spec 4.5).  [invalidated]
    stands for the region it reports for the adopted buffer. *)
Definition latchBuffer (invalidated : t -> BufferItem -> Region) (l : t)
  : Region * t :=
  if mQueuedFrames l =? 0 then (Region_empty, l)
  else
    match rev (queued l) with
    | [] =>
        (Region_empty,
         mkLayer (to_i32 (mQueuedFrames l - 1)) [] (mActiveBuffer l)
                 (mCurrentCrop l) (mCurrentTransform l) (mTimestamp l) (wake l))
    | newest :: _ =>
        (invalidated l newest,
         mkLayer (to_i32 (mQueuedFrames l - 1)) [] (Some (buf_handle newest))
                 (buf_crop newest) (buf_transform newest)
                 (buf_timestamp newest) (wake l))
    end.

(** One producer round: queue a buffer, then notify. *)
Definition produce (l : t) (b : BufferItem) : t :=
  onFrameAvailable (queueBuffer l b).

End Latch.

End Layer.

(** ** More of [LayerBase.cpp] *)

(** [float] subtraction. *)
Definition Float32_sub : float -> float -> float :=
  SFsub Float32.prec Float32.emax.

(** The two further members of [Transform] that [computeGeometry] calls:
    [operator*] and [transform(float* v, int x, int y)]. *)
Class TransformPointOps (Transform : Type) : Type := {
  tr_compose : Transform -> Transform -> Transform;
  tr_transform_point : Transform -> Z -> Z -> float * float
}.

(** The OpenGL ES calls [LayerBase.cpp] issues, with the enumerators it
    passes. *)
Inductive GLcap : Type := GL_BLEND | GL_TEXTURE_2D | GL_TEXTURE_EXTERNAL_OES.
Inductive GLfactor : Type := GL_ONE | GL_SRC_ALPHA | GL_ONE_MINUS_SRC_ALPHA.
Inductive GLtexenv : Type := GL_MODULATE | GL_REPLACE.

Inductive GLcall : Type :=
| glColor4f (r g b a : float)
| glEnable (cap : GLcap)
| glDisable (cap : GLcap)
| glBlendFunc (sfactor dfactor : GLfactor)
| glTexEnvx_mode (mode : GLtexenv)
| glEnableClientState_texcoord
| glDisableClientState_texcoord
| glTexCoordPointer (coords : list (float * float))
| glVertexPointer (vertices : list (float * float))
| glDrawArrays_fan (first count : Z).

(** Whether [GL_BLEND] is enabled after a run of calls, given whether it
    was before. *)
Definition blendAfter (before : bool) (calls : list GLcall) : bool :=
  fold_left
    (fun b c =>
       match c with
       | glEnable GL_BLEND => true
       | glDisable GL_BLEND => false
       | _ => b
       end) calls before.

(** The source factor in force after a run of calls. *)
Definition blendSrcAfter (before : option GLfactor) (calls : list GLcall)
  : option GLfactor :=
  fold_left
    (fun b c =>
       match c with
       | glBlendFunc s _ => Some s
       | _ => b
       end) calls before.

(** The calls up to the first draw call. *)
Fixpoint beforeDraw (calls : list GLcall) : list GLcall :=
  match calls with
  | [] => []
  | glDrawArrays_fan _ _ :: _ => []
  | c :: rest => c :: beforeDraw rest
  end.

Section ModelMore.
Context {C : Constants}.
Context {Transform : Type} {TO : TransformOps Transform}.
Context {TP : TransformPointOps Transform}.
Context {Region : Type} {RO : RegionOps Region}.

Local Abbreviation LayerBase := (LayerBase Transform Region).

(** The constructor's use of the process-wide counter [sSequence]:
    [android_atomic_inc] returns the value before the increment, which
    becomes the layer's [sequence] as a [uint32_t].  The result is the
    layer's [sequence], the layer and the new [sSequence]. *)
Definition LayerBase_construct (sSequence : Z) (opaque : bool)
  : Z * LayerBase * Z :=
  (to_u32 sSequence, LayerBase_new opaque, to_i32 (sSequence + 1)).

(** The initial value of [sSequence]. *)
Definition sSequence_initial : Z := 1.

(** The [sequence] members of [n] layers constructed one after another. *)
Fixpoint constructed_sequences (n : nat) (sSequence : Z) : list Z :=
  match n with
  | O => []
  | S n' =>
      let '(id, _, sSequence') := LayerBase_construct sSequence true in
      id :: constructed_sequences n' sSequence'
  end.

(** [needsFiltering]; the second argument is [hw->needsFiltering()]. *)
Definition needsFiltering (l : LayerBase) (hwNeedsFiltering : bool) : bool :=
  mNeedsFiltering l || hwNeedsFiltering.

Definition setFiltering (l : LayerBase) (filtering : bool) : LayerBase :=
  mkLayerBase (contentDirty l) filtering (mNeedsFiltering l)
              (mTransactionFlags l) (mPremultipliedAlpha l)
              (mCurrentState l) (mDrawingState l) (isOpaque l).

Definition getFiltering (l : LayerBase) : bool := mFiltering l.

(** A display as the drawing functions read it: viewport and transform,
    and [getHeight()]. *)
Record Display : Type := mkDisplay {
  device : DisplayDevice Transform;
  getHeight : Z
}.

(** [LayerMesh]: the four vertices of the quad. *)
Definition LayerMesh : Type := list (float * float).

(** [computeGeometry]; a null [mesh] is [None]. *)
Definition computeGeometry (l : LayerBase) (hw : Display)
  (mesh : option LayerMesh) : option LayerMesh :=
  let s := mDrawingState l in
  let tr := tr_compose (getTransform (device hw)) (transform s) in
  let hw_h := to_u32 (getHeight hw) in
  let win := Rect_wh (w (active s)) (h (active s)) in
  let win := if negb (isEmpty (crop (active s)))
             then intersect win (crop (active s)) else win in
  match mesh with
  | None => None
  | Some _ =>
      let vs := [ tr_transform_point tr (left win) (top win);
                  tr_transform_point tr (left win) (bottom win);
                  tr_transform_point tr (right win) (bottom win);
                  tr_transform_point tr (right win) (top win) ] in
      Some (map (fun v => (fst v, Float32_sub (Float32.of_int hw_h) (snd v))) vs)
  end.

(** The vertices a freshly declared [LayerMesh] gets from
    [computeGeometry]. *)
Definition meshVertices (l : LayerBase) (hw : Display) : list (float * float) :=
  match computeGeometry l hw (Some []) with
  | Some vs => vs
  | None => []
  end.

(** [clearWithOpenGL(hw, clip, red, green, blue, alpha)]. *)
Definition clearWithOpenGL_color (l : LayerBase) (hw : Display)
  (red green blue alpha' : float) : list GLcall :=
  let vs := meshVertices l hw in
  [ glColor4f red green blue alpha';
    glDisable GL_TEXTURE_EXTERNAL_OES;
    glDisable GL_TEXTURE_2D;
    glDisable GL_BLEND;
    glVertexPointer vs;
    glDrawArrays_fan 0 (Z.of_nat (length vs)) ].

(** [clearWithOpenGL(hw, clip)]. *)
Definition clearWithOpenGL (l : LayerBase) (hw : Display) : list GLcall :=
  clearWithOpenGL_color l hw Float32.zero Float32.zero Float32.zero Float32.zero.

(** The texture coordinates [drawWithOpenGL] computes from
    [computeBounds()] and the active size, V axis flipped. *)
Definition texCoords (l : LayerBase) : list (float * float) :=
  let s := mDrawingState l in
  let win := computeBounds l in
  let fw := Float32.of_int (to_u32 (w (active s))) in
  let fh := Float32.of_int (to_u32 (h (active s))) in
  let left' := Float32.div (Float32.of_int (left win)) fw in
  let top' := Float32.div (Float32.of_int (top win)) fh in
  let right' := Float32.div (Float32.of_int (right win)) fw in
  let bottom' := Float32.div (Float32.of_int (bottom win)) fh in
  map (fun uv => (fst uv, Float32_sub Float32.one (snd uv)))
      [ (left', top'); (left', bottom'); (right', bottom'); (right', top') ].

(** [drawWithOpenGL]: the calls it issues, in order. *)
Definition drawWithOpenGL (l : LayerBase) (hw : Display) : list GLcall :=
  let s := mDrawingState l in
  let src := if mPremultipliedAlpha l then GL_ONE else GL_SRC_ALPHA in
  let one := Float32.one in
  let setup :=
    if alpha s <? 255 then
      let alpha' :=
        Float32.mul (Float32.of_int (alpha s))
                    (Float32.div Float32.one (Float32.of_int 255)) in
      [ if mPremultipliedAlpha l then glColor4f alpha' alpha' alpha' alpha'
        else glColor4f one one one alpha';
        glEnable GL_BLEND;
        glBlendFunc src GL_ONE_MINUS_SRC_ALPHA;
        glTexEnvx_mode GL_MODULATE ]
    else
      [ glColor4f one one one one;
        glTexEnvx_mode GL_REPLACE ] ++
      (if negb (isOpaque l)
       then [ glEnable GL_BLEND; glBlendFunc src GL_ONE_MINUS_SRC_ALPHA ]
       else [ glDisable GL_BLEND ]) in
  let vs := meshVertices l hw in
  setup ++
  [ glEnableClientState_texcoord;
    glTexCoordPointer (texCoords l);
    glVertexPointer vs;
    glDrawArrays_fan 0 (Z.of_nat (length vs));
    glDisableClientState_texcoord;
    glDisable GL_BLEND ].

End ModelMore.

Arguments Display : clear implicits.

Section ClientMore.
Context {Transform Region ISurface IBinder : Type}.

(** [getSurfaceTextureBinder] of the base client: a null binder. *)
Definition getSurfaceTextureBinder
  (c : LayerBaseClient Transform Region IBinder) : option IBinder := None.

End ClientMore.

(** ** An executable instance of the parameters *)

(** The values the enumerators have in the Android headers of this
    release; used to run the model on concrete inputs. *)
Definition android_constants : Constants := {|
  eTransactionNeeded := 1;
  eDontUpdateGeometryState := 1;
  eVisibleRegion := 2;
  eLayerHidden := 1;
  eHidden := 4;
  eNonPremultiplied := 256;
  SCALE := 4;
  ROT_INVALID := 128;
  NATIVE_WINDOW_TRANSFORM_FLIP_H := 1;
  NATIVE_WINDOW_TRANSFORM_FLIP_V := 2;
  NATIVE_WINDOW_TRANSFORM_ROT_90 := 4
|}.

(** A sample [Transform]: a translation and the four matrix entries as
    they were set.  Rectangles are moved by the whole-pixel part of the
    translation; a matrix with an off-diagonal entry is classified as an
    unsupported rotation. *)
Record SampleTransform : Type := mkSampleTransform {
  st_x : float;
  st_y : float;
  st_a : float; st_b : float; st_c : float; st_d : float
}.

Definition st_diagonal (t : SampleTransform) : bool :=
  Float32.eqb (st_b t) Float32.zero && Float32.eqb (st_c t) Float32.zero.

Definition st_unit (t : SampleTransform) : bool :=
  Float32.eqb (st_a t) Float32.one && Float32.eqb (st_d t) Float32.one.

Definition st_still (t : SampleTransform) : bool :=
  Float32.eqb (st_x t) Float32.zero && Float32.eqb (st_y t) Float32.zero.

Definition st_move (dx dy : Z) (r : Rect) : Rect :=
  mkRect (left r + dx) (top r + dy) (right r + dx) (bottom r + dy).

Definition sample_transform_ops : TransformOps SampleTransform := {|
  tr_default :=
    mkSampleTransform Float32.zero Float32.zero
                      Float32.one Float32.zero Float32.zero Float32.one;
  tr_tx := st_x;
  tr_ty := st_y;
  tr_set := fun t x y => mkSampleTransform x y (st_a t) (st_b t) (st_c t) (st_d t);
  tr_set_matrix := fun t a b c d => mkSampleTransform (st_x t) (st_y t) a b c d;
  tr_getType := fun t =>
    Z.lor (if st_still t then 0 else 1)
          (if st_diagonal t then (if st_unit t then 0 else 4) else 6);
  tr_preserveRects := st_diagonal;
  tr_getOrientation := fun t => if st_diagonal t then 0 else 128;
  tr_transform := fun t r =>
    st_move (Float32.trunc_Z (st_x t)) (Float32.trunc_Z (st_y t)) r;
  tr_inverse := fun t =>
    mkSampleTransform (SFopp (st_x t)) (SFopp (st_y t))
                      (st_a t) (st_b t) (st_c t) (st_d t)
|}.

(** A sample [Region]: a list of rectangles. *)
Definition sample_region_ops : RegionOps (list Rect) := {|
  Region_empty := []
|}.

(** A sample surface: the surface and its binder are numbers. *)
Definition sample_surface_ops : SurfaceOps Z Z := {| asBinder := fun s => s |}.

Definition SampleLayer : Type := LayerBase SampleTransform (list Rect).

(** A layer as [initStates(w, h, flags)] leaves it after construction. *)
Definition sample_layer (opaque : bool) (w' h' flags' : Z) : SampleLayer :=
  @initStates android_constants _ sample_transform_ops _
    (@LayerBase_new _ sample_transform_ops _ sample_region_ops opaque)
    w' h' flags'.

Definition sample_identity : matrix22_t :=
  mkMatrix22 Float32.one Float32.zero Float32.zero Float32.one.

(** An opaque 10 x 10 layer, visible, with premultiplied alpha. *)
Definition layer0 : SampleLayer := sample_layer true 10 10 0.

Definition sample_display : DisplayDevice SampleTransform :=
  mkDisplayDevice (mkRect 0 0 1920 1080) (@tr_default _ sample_transform_ops).

Definition sample_descriptor : HWCLayer :=
  mkHWCLayer 7 HWC_BLENDING_COVERAGE (mkRect 0 0 0 0) (Some (mkRect 0 0 0 0)).

(** [layer0] after a resize was requested and a commit that keeps the
    geometry (as [Layer] asks for while it waits for a buffer of the new
    size) has run. *)
Definition layer_resize_deferred : SampleLayer :=
  snd (@doTransaction android_constants _ sample_transform_ops _
         (snd (@setSize android_constants _ _ layer0 20 20))
         (@eDontUpdateGeometryState android_constants)).

(** [layer0] with the window crop (2,3)-(8,9) committed. *)
Definition layer_cropped : SampleLayer :=
  snd (@doTransaction android_constants _ sample_transform_ops _
         (snd (@setCrop android_constants _ _ layer0 (mkRect 2 3 8 9))) 0).

Definition sample_buffer (n : Z) : Layer.BufferItem :=
  Layer.mkBufferItem n (mkRect 0 0 n n) 0 (100 * n).

Definition idle_layer : Layer.t :=
  Layer.mkLayer 0 [] None Rect_invalid 0 0 false.

(** The sample [Transform], continued: composition adds the translations
    and keeps the matrix of the right operand; a point is moved by the
    translation. *)
Definition sample_point_ops : TransformPointOps SampleTransform := {|
  tr_compose := fun a b =>
    mkSampleTransform
      (SFadd Float32.prec Float32.emax (st_x a) (st_x b))
      (SFadd Float32.prec Float32.emax (st_y a) (st_y b))
      (st_a b) (st_b b) (st_c b) (st_d b);
  tr_transform_point := fun t x y =>
    (SFadd Float32.prec Float32.emax (Float32.of_int x) (st_x t),
     SFadd Float32.prec Float32.emax (Float32.of_int y) (st_y t))
|}.

Definition sample_screen : Display SampleTransform :=
  mkDisplay sample_display 1080.

(** [layer0] with the window crop equal to the window, committed. *)
Definition layer_full_crop : SampleLayer :=
  snd (@doTransaction android_constants _ sample_transform_ops _
         (snd (@setCrop android_constants _ _ layer0 (mkRect 0 0 10 10))) 0).

(** [layer0] with alpha 128 committed. *)
Definition layer_translucent : SampleLayer :=
  snd (@doTransaction android_constants _ sample_transform_ops _
         (snd (@setAlpha android_constants _ _ layer0 128)) 0).

(** [layer0] after [setAlpha(128)], not yet committed: the committed alpha
    is 255 and the pending alpha is 128. *)
Definition layer_alpha_pending : SampleLayer :=
  snd (@setAlpha android_constants _ _ layer0 128).



(** [layer0] with a scaling matrix set and not yet committed. *)
Definition layer_scaled : SampleLayer :=
  snd (@setMatrix android_constants _ sample_transform_ops _ layer0
         (mkMatrix22 (Float32.of_int 2) Float32.zero
                     Float32.zero (Float32.of_int 2))).


(** * Properties *)

(** ** Bit masks and conversions *)

Lemma land_lor_absorb (a b : Z) : Z.land (Z.lor a b) b = b.
Proof.
  apply Z.bits_inj'. intros n Hn.
  rewrite Z.land_spec, Z.lor_spec.
  destruct (Z.testbit a n), (Z.testbit b n); reflexivity.
Qed.

Lemma to_u32_small (n : Z) : 0 <= n < 2 ^ 32 -> to_u32 n = n.
Proof. intros H. unfold to_u32. apply Z.mod_small. exact H. Qed.

Lemma to_u8_small (n : Z) : 0 <= n < 2 ^ 8 -> to_u8 n = n.
Proof. intros H. unfold to_u8. apply Z.mod_small. exact H. Qed.

Lemma to_i32_small (n : Z) : - 2 ^ 31 <= n < 2 ^ 31 -> to_i32 n = n.
Proof. intros H. unfold to_i32. rewrite Z.mod_small; lia. Qed.

Lemma to_i32_range (n : Z) : - 2 ^ 31 <= to_i32 n < 2 ^ 31.
Proof.
  unfold to_i32.
  pose proof (Z.mod_pos_bound (n + 2 ^ 31) (2 ^ 32) ltac:(lia)). lia.
Qed.

Lemma to_u32_testbit (n i : Z) :
  0 <= i -> Z.testbit (to_u32 n) i = (i <? 32) && Z.testbit n i.
Proof.
  intros Hi. unfold to_u32.
  destruct (Z.ltb_spec i 32).
  - rewrite Z.mod_pow2_bits_low by lia. reflexivity.
  - rewrite Z.mod_pow2_bits_high by lia. reflexivity.
Qed.

Lemma Rect_eqb_refl (r : Rect) : Rect_eqb r r = true.
Proof. unfold Rect_eqb. rewrite !Z.eqb_refl. reflexivity. Qed.

Lemma Rect_eqb_eq (a b : Rect) : Rect_eqb a b = true <-> a = b.
Proof.
  unfold Rect_eqb. destruct a, b; simpl.
  rewrite !andb_true_iff, !Z.eqb_eq. split.
  - intros [[[-> ->] ->] ->]. reflexivity.
  - intros H. injection H as -> -> -> ->. auto.
Qed.

Section Properties.
Context {C : Constants}.
Context {Transform : Type} {TO : TransformOps Transform}.
Context {Region : Type} {RO : RegionOps Region}.

Local Abbreviation LayerBase := (LayerBase Transform Region).
Local Abbreviation State := (State Transform Region).
Local Abbreviation Mutator := (Mutator Region).

Lemma Geometry_eqb_refl (g : Geometry) : Geometry_eqb g g = true.
Proof.
  unfold Geometry_eqb. rewrite !Z.eqb_refl, Rect_eqb_refl. reflexivity.
Qed.

Lemma Geometry_eqb_eq (a b : Geometry) : Geometry_eqb a b = true <-> a = b.
Proof.
  unfold Geometry_eqb. destruct a, b; simpl.
  rewrite !andb_true_iff, !Z.eqb_eq, Rect_eqb_eq. split.
  - intros [[-> ->] ->]. reflexivity.
  - intros H. injection H as -> -> ->. auto.
Qed.

(** ** What [requestTransaction] touches *)

Lemma requestTransaction_current (l : LayerBase) :
  mCurrentState (snd (requestTransaction l)) = mCurrentState l.
Proof. reflexivity. Qed.

Lemma requestTransaction_drawing (l : LayerBase) :
  mDrawingState (snd (requestTransaction l)) = mDrawingState l.
Proof. reflexivity. Qed.

Lemma requestTransaction_pending (l : LayerBase) :
  transactionPending (snd (requestTransaction l)).
Proof. unfold transactionPending. simpl. apply land_lor_absorb. Qed.

(** Unfolds a mutator call down to the record fields. *)
Ltac mutator_cases m :=
  destruct m; simpl;
  unfold setPosition, setLayer, setSize, setAlpha, setMatrix,
    setTransparentRegionHint, setFlags, setCrop, setLayerStack.

Ltac split_if :=
  match goal with
  | |- context [if ?b then _ else _] => destruct b eqn:?
  end.

(** Case analysis on the comparison a mutator starts with. *)
Ltac split_guard l :=
  match goal with
  | |- context [if ?b then (false, l) else _] => destruct b eqn:Heqb
  end.

(** ** The committed snapshot is not written by mutators *)

Lemma call_drawing (l : LayerBase) (m : Mutator) :
  mDrawingState (snd (call l m)) = mDrawingState l.
Proof. mutator_cases m; try split_if; reflexivity. Qed.

Lemma callAll_drawing (ms : list Mutator) (l : LayerBase) :
  mDrawingState (callAll l ms) = mDrawingState l.
Proof.
  revert l. induction ms as [|m ms IH]; intros l; simpl.
  - reflexivity.
  - unfold callAll in *. simpl. rewrite IH. apply call_drawing.
Qed.

Lemma isVisible_drawing (l l' : LayerBase) :
  mDrawingState l' = mDrawingState l -> isVisible l' = isVisible l.
Proof. intros H. unfold isVisible. rewrite H. reflexivity. Qed.

(** C4 (amended).  No mutator writes the committed snapshot: after one
    call, and after any run of calls, [mDrawingState] is what it was, so
    [isVisible] (which reads the committed snapshot only) answers the same
    until [doTransaction] commits.  On a layer with committed alpha 255
    whose pending alpha is not 128 already, [setAlpha(128)] returns [true],
    the pending alpha becomes 128, and the committed alpha and [isVisible]
    are unchanged. *)
Theorem mutators_leave_committed_state :
  forall (l : LayerBase),
    (forall m, mDrawingState (snd (call l m)) = mDrawingState l /\
               isVisible (snd (call l m)) = isVisible l) /\
    (forall ms, mDrawingState (callAll l ms) = mDrawingState l /\
                isVisible (callAll l ms) = isVisible l) /\
    (alpha (mDrawingState l) = 255 ->
     alpha (mCurrentState l) <> 128 ->
     fst (setAlpha l 128) = true /\
     alpha (mCurrentState (snd (setAlpha l 128))) = 128 /\
     alpha (mDrawingState (snd (setAlpha l 128))) = 255 /\
     isVisible (snd (setAlpha l 128)) = isVisible l).
Proof.
  intros l. split; [|split].
  - intros m. split.
    + apply call_drawing.
    + apply isVisible_drawing, call_drawing.
  - intros ms. split.
    + apply callAll_drawing.
    + apply isVisible_drawing, callAll_drawing.
  - intros Hd Hc.
    pose proof (call_drawing l (SetAlpha 128)) as Hfr. simpl in Hfr.
    assert (Hne : (alpha (mCurrentState l) =? 128) = false)
      by (apply Z.eqb_neq; exact Hc).
    repeat split.
    + unfold setAlpha. rewrite Hne. reflexivity.
    + unfold setAlpha. rewrite Hne. reflexivity.
    + rewrite Hfr. exact Hd.
    + apply isVisible_drawing. exact Hfr.
Qed.

(** C10.  [isVisible] is true exactly when the committed flags have no bit
    of the hidden mask and the committed alpha is nonzero; a committed
    alpha of 0 makes it false whatever the flags are. *)
Theorem isVisible_iff :
  forall (l : LayerBase),
    (isVisible l = true <->
     Z.land (flags (mDrawingState l)) eLayerHidden = 0 /\
     alpha (mDrawingState l) <> 0) /\
    (alpha (mDrawingState l) = 0 -> isVisible l = false).
Proof.
  intros l. unfold isVisible. split.
  - rewrite andb_true_iff, negb_true_iff, Z.eqb_eq, Z.eqb_neq. tauto.
  - intros ->. simpl. apply andb_false_r.
Qed.

(** ** Mutators: the write path *)

Lemma newFlags_idem (cur flags' mask : Z) :
  newFlags (newFlags cur flags' mask) flags' mask = newFlags cur flags' mask.
Proof.
  unfold newFlags. apply Z.bits_inj'. intros n Hn.
  rewrite !to_u32_testbit by lia.
  rewrite !Z.lor_spec, !Z.land_spec, !Z.lnot_spec by lia.
  rewrite to_u32_testbit by lia.
  rewrite !Z.lor_spec, !Z.land_spec, !Z.lnot_spec by lia.
  destruct (n <? 32), (Z.testbit cur n), (Z.testbit flags' n),
    (Z.testbit mask n); reflexivity.
Qed.

Lemma newFlags_same (cur flags' mask : Z) :
  0 <= cur < 2 ^ 32 ->
  Z.land flags' mask = Z.land cur mask ->
  newFlags cur flags' mask = cur.
Proof.
  intros Hr He. unfold newFlags. rewrite He.
  rewrite <- (to_u32_small cur Hr) at 3. f_equal.
  apply Z.bits_inj'. intros n Hn.
  rewrite !Z.lor_spec, !Z.land_spec, !Z.lnot_spec by lia.
  destruct (Z.testbit cur n), (Z.testbit mask n); reflexivity.
Qed.

Lemma Float32_eqb_refl (x : float) :
  Float32.is_nan x = false -> Float32.eqb x x = true.
Proof.
  destruct x as [s|s| |s m e]; simpl; intros H; try discriminate;
    unfold Float32.eqb, SFeqb, SFcompare.
  - reflexivity.
  - destruct s; reflexivity.
  - rewrite Z.compare_refl.
    change (Pos.compare_cont Eq m m) with (Pos.compare m m).
    rewrite Pos.compare_refl. destruct s; reflexivity.
Qed.

Lemma call_same_noop (l : LayerBase) (m : Mutator) :
  compares m = true ->
  0 <= flags (mCurrentState l) < 2 ^ 32 ->
  sameAsPending (mCurrentState l) m ->
  call l m = (false, l).
Proof.
  intros Hc Hr Hs. mutator_cases m; simpl in *; try discriminate.
  - destruct Hs as [-> ->]. reflexivity.
  - subst. rewrite Z.eqb_refl. reflexivity.
  - destruct Hs as [<- <-]. rewrite !Z.eqb_refl. reflexivity.
  - subst. rewrite Z.eqb_refl. reflexivity.
  - rewrite (newFlags_same _ _ _ Hr Hs), Z.eqb_refl. reflexivity.
  - subst. rewrite Rect_eqb_refl. reflexivity.
  - subst. rewrite Z.eqb_refl. reflexivity.
Qed.

(** [setFlags] finds a difference whenever a masked bit differs. *)
Lemma newFlags_differs (cur flags' mask : Z) :
  0 <= mask < 2 ^ 32 ->
  newFlags cur flags' mask = cur ->
  Z.land flags' mask = Z.land cur mask.
Proof.
  intros Hm He. apply Z.bits_inj'. intros i Hi.
  rewrite !Z.land_spec.
  destruct (Z.testbit mask i) eqn:Hb; [|rewrite !andb_false_r; reflexivity].
  rewrite !andb_true_r.
  assert (Hi32 : i < 32).
  { destruct (Z.lt_ge_cases i 32) as [H|H]; [exact H|]. exfalso.
    rewrite <- (Z.mod_small mask (2 ^ 32)) in Hb by lia.
    rewrite Z.mod_pow2_bits_high in Hb by lia. discriminate. }
  assert (Hbit : Z.testbit (newFlags cur flags' mask) i = Z.testbit cur i)
    by (rewrite He; reflexivity).
  unfold newFlags in Hbit.
  rewrite to_u32_testbit, Z.lor_spec, !Z.land_spec, Z.lnot_spec in Hbit by lia.
  rewrite Hb in Hbit.
  replace (i <? 32) with true in Hbit by (symmetry; apply Z.ltb_lt; lia).
  destruct (Z.testbit cur i), (Z.testbit flags' i); simpl in Hbit;
    congruence.
Qed.

(** A comparing mutator given a value other than the pending one takes
    its write path. *)
Lemma call_differs_true (l : LayerBase) (m : Mutator) :
  compares m = true ->
  fitsParameters m ->
  ~ sameAsPending (mCurrentState l) m ->
  fst (call l m) = true.
Proof.
  intros Hc Hf Hs. mutator_cases m; simpl in *; try discriminate;
    split_guard l; try reflexivity; exfalso; apply Hs.
  - apply andb_true_iff in Heqb. exact Heqb.
  - apply Z.eqb_eq in Heqb. exact Heqb.
  - apply andb_true_iff in Heqb. rewrite !Z.eqb_eq in Heqb. exact Heqb.
  - apply Z.eqb_eq in Heqb. exact Heqb.
  - apply Z.eqb_eq in Heqb. symmetry in Heqb.
    apply newFlags_differs; [lia|exact Heqb].
  - apply Rect_eqb_eq in Heqb. exact Heqb.
  - apply Z.eqb_eq in Heqb. exact Heqb.
Qed.

Lemma call_uncompared (l : LayerBase) (m : Mutator) :
  compares m = false ->
  fst (call l m) = true /\
  sequence (mCurrentState (snd (call l m))) =
    to_i32 (sequence (mCurrentState l) + 1) /\
  transactionPending (snd (call l m)).
Proof.
  intros Hc. mutator_cases m; simpl in *; try discriminate;
    (repeat split; try reflexivity; apply land_lor_absorb).
Qed.

Lemma call_twice (l : LayerBase) (m : Mutator) :
  (forall t x y, tr_tx (tr_set t x y) = x) ->
  (forall t x y, tr_ty (tr_set t x y) = y) ->
  compares m = true ->
  comparable m ->
  call (snd (call l m)) m = (false, snd (call l m)).
Proof.
  intros Htx Hty Hc Hn. mutator_cases m; simpl in *; try discriminate.
  - destruct Hn as [Hx Hy]. split_guard l; simpl.
    + rewrite Heqb. reflexivity.
    + rewrite Htx, Hty, !Float32_eqb_refl by assumption. reflexivity.
  - split_guard l; simpl.
    + rewrite Heqb. reflexivity.
    + rewrite Z.eqb_refl. reflexivity.
  - split_guard l; simpl.
    + rewrite Heqb. reflexivity.
    + rewrite !Z.eqb_refl. reflexivity.
  - split_guard l; simpl.
    + rewrite Heqb. reflexivity.
    + rewrite Z.eqb_refl. reflexivity.
  - split_guard l; simpl.
    + rewrite Heqb. reflexivity.
    + rewrite newFlags_idem, Z.eqb_refl. reflexivity.
  - split_guard l; simpl.
    + rewrite Heqb. reflexivity.
    + rewrite Rect_eqb_refl. reflexivity.
  - split_guard l; simpl.
    + rewrite Heqb. reflexivity.
    + rewrite Z.eqb_refl. reflexivity.
Qed.

(** C1 (amended).  For the seven mutators that compare ([setPosition],
    [setLayer], [setSize], [setAlpha], [setFlags], [setCrop],
    [setLayerStack]) a call whose argument equals the pending value returns
    [false] and leaves the whole layer as it was (pending and committed
    state, sequence, transaction flags); a call whose argument differs from
    the pending value returns [true]; and a second call with the same
    argument, right after a first one, returns [false] and changes nothing
    (for [setPosition]: when no coordinate is a NaN and [Transform] stores
    the translation it is given): [true] then [false].  [setMatrix] and
    [setTransparentRegionHint] do not compare: they return [true], bump the
    sequence and mark a transaction pending on every call, also when the
    argument is what the pending snapshot holds. *)
Theorem comparing_mutators_noop_when_equal :
  forall (l : LayerBase) (m : Mutator),
    (forall t x y, tr_tx (tr_set t x y) = x) ->
    (forall t x y, tr_ty (tr_set t x y) = y) ->
    0 <= flags (mCurrentState l) < 2 ^ 32 ->
    (compares m = true ->
     (sameAsPending (mCurrentState l) m -> call l m = (false, l)) /\
     (fitsParameters m -> ~ sameAsPending (mCurrentState l) m ->
      fst (call l m) = true) /\
     (comparable m -> call (snd (call l m)) m = (false, snd (call l m)))) /\
    (compares m = false ->
     fst (call l m) = true /\
     fst (call (snd (call l m)) m) = true /\
     sequence (mCurrentState (snd (call l m))) =
       to_i32 (sequence (mCurrentState l) + 1) /\
     transactionPending (snd (call l m))).
Proof.
  intros l m Htx Hty Hr. split; intros Hc.
  - split; [|split].
    + apply call_same_noop; assumption.
    + apply call_differs_true; assumption.
    + apply call_twice; assumption.
  - destruct (call_uncompared l m Hc) as (H1 & H2 & H3).
    destruct (call_uncompared (snd (call l m)) m Hc) as (H4 & _).
    auto.
Qed.

(** C2 (amended).  A mutator call that returns [true] marks a transaction
    pending.  For every mutator but [setSize] it also increments the pending
    [sequence] by one (an [int32_t] increment, so exactly [+ 1] below
    [INT32_MAX]); [setSize] writes the requested size and leaves [sequence]
    as it is. *)
Theorem changed_mutator_effect :
  forall (l : LayerBase) (m : Mutator),
    fst (call l m) = true ->
    transactionPending (snd (call l m)) /\
    (bumps m = true ->
     sequence (mCurrentState (snd (call l m))) =
       to_i32 (sequence (mCurrentState l) + 1) /\
     (INT32_MIN <= sequence (mCurrentState l) < INT32_MAX ->
      sequence (mCurrentState (snd (call l m))) =
        sequence (mCurrentState l) + 1)) /\
    (bumps m = false ->
     sequence (mCurrentState (snd (call l m))) = sequence (mCurrentState l) /\
     requested (mCurrentState (snd (call l m))) <> requested (mCurrentState l)).
Proof.
  intros l m Ht.
  assert (Hb : forall s : Z, INT32_MIN <= s < INT32_MAX -> to_i32 (s + 1) = s + 1).
  { intros s Hs. apply to_i32_small. unfold INT32_MIN, INT32_MAX in Hs. lia. }
  revert Ht. mutator_cases m; try split_if; simpl; intros Ht;
    try discriminate;
    (split; [apply land_lor_absorb|]);
    (split; intros Hbm; try discriminate; split; try reflexivity; try apply Hb).
  intros Heq. rewrite <- Heq in Heqb.
  simpl in Heqb. rewrite !Z.eqb_refl in Heqb. discriminate.
Qed.

(** ** The commit step *)

Lemma set_active_same (s : State) :
  requested s = active s -> set_active s (requested s) = s.
Proof. destruct s; simpl; intros H; subst; reflexivity. Qed.

Lemma set_mCurrentState_same (l : LayerBase) :
  set_mCurrentState l (mCurrentState l) = l.
Proof. destruct l; reflexivity. Qed.

Lemma set_mDrawingState_same (l : LayerBase) :
  set_mDrawingState l (mDrawingState l) = l.
Proof. destruct l; reflexivity. Qed.

(** C3 (amended).  When pending equals committed, the input flags have no
    visible-region bit, and the commit has no deferred resize to fold in
    (the caller passes [eDontUpdateGeometryState], or the requested
    geometry equals the active one), [doTransaction] returns its input
    flags, so no visible-region bit, and leaves the layer, committed
    snapshot included, as it was. *)
Theorem doTransaction_idle :
  forall (l : LayerBase) (flags' : Z),
    mCurrentState l = mDrawingState l ->
    Z.land flags' eVisibleRegion = 0 ->
    Z.land flags' eDontUpdateGeometryState <> 0 \/
    requested (mCurrentState l) = active (mCurrentState l) ->
    fst (doTransaction l flags') = flags' /\
    Z.land (fst (doTransaction l flags')) eVisibleRegion = 0 /\
    mDrawingState (snd (doTransaction l flags')) = mDrawingState l /\
    snd (doTransaction l flags') = l.
Proof.
  intros l flags' Heq Hv Hg.
  assert (Hl1 :
    (if Z.land flags' eDontUpdateGeometryState =? 0
     then set_mCurrentState l
            (set_active (mCurrentState l) (requested (mCurrentState l)))
     else l) = l).
  { destruct Hg as [Hg|Hg].
    - apply Z.eqb_neq in Hg. rewrite Hg. reflexivity.
    - rewrite set_active_same by exact Hg.
      rewrite set_mCurrentState_same. destruct (_ =? _); reflexivity. }
  assert (Hd : doTransaction l flags' = (flags', l)).
  { unfold doTransaction. rewrite Hl1, <- Heq.
    rewrite Geometry_eqb_refl, Z.eqb_refl.
    unfold commitTransaction. rewrite Heq at 1.
    rewrite set_mDrawingState_same. reflexivity. }
  rewrite Hd. simpl. auto.
Qed.

(** C6.  When the pending sequence differs from the committed one,
    [doTransaction] sets the visible-region bit in its result, marks the
    content dirty, and sets [mNeedsFiltering] to true exactly when the
    pending transform does not preserve rectangles or its type (the
    [uint8_t] the code reads, which is [getType()] itself when that fits
    eight bits) is [SCALE] or higher. *)
Theorem doTransaction_sequence_changed :
  forall (l : LayerBase) (flags' : Z),
    sequence (mCurrentState l) <> sequence (mDrawingState l) ->
    let t := transform (mCurrentState l) in
    let r := doTransaction l flags' in
    Z.land (fst r) eVisibleRegion = eVisibleRegion /\
    contentDirty (snd r) = true /\
    (mNeedsFiltering (snd r) = true <->
     tr_preserveRects t = false \/ SCALE <= to_u8 (tr_getType t)) /\
    (0 <= tr_getType t < 2 ^ 8 ->
     (mNeedsFiltering (snd r) = true <->
      tr_preserveRects t = false \/ SCALE <= tr_getType t)).
Proof.
  intros l flags' Hs t r.
  assert (Hr : exists f l1,
    r = (Z.lor f eVisibleRegion,
         commitTransaction
           (set_mNeedsFiltering (set_contentDirty l1 true)
              (transformNeedsFiltering t)))).
  { subst r t. unfold doTransaction.
    apply Z.eqb_neq in Hs.
    destruct (Z.land flags' eDontUpdateGeometryState =? 0); simpl;
      rewrite Hs; eauto. }
  destruct Hr as (f & l1 & ->). simpl.
  assert (Hn : transformNeedsFiltering t = true <->
               tr_preserveRects t = false \/ SCALE <= to_u8 (tr_getType t)).
  { unfold transformNeedsFiltering.
    rewrite orb_true_iff, negb_true_iff, Z.leb_le. tauto. }
  split; [apply land_lor_absorb|].
  split; [reflexivity|].
  split; [exact Hn|].
  intros Hty. rewrite (to_u8_small _ Hty) in Hn. exact Hn.
Qed.

(** ** The hardware-composer descriptor *)

Lemma setGeometry_blending (l : LayerBase) (hw : DisplayDevice Transform)
  (y : HWCLayer) :
  hwc_blending (setGeometry l hw y) =
    if negb (isOpaque l) || negb (alpha (mDrawingState l) =? 255)
    then (if mPremultipliedAlpha l then HWC_BLENDING_PREMULT
          else HWC_BLENDING_COVERAGE)
    else HWC_BLENDING_NONE.
Proof.
  unfold setGeometry. simpl.
  destruct (negb (isOpaque l) || negb (alpha (mDrawingState l) =? 255));
    destruct (Z.land _ ROT_INVALID =? 0); reflexivity.
Qed.

Lemma setGeometry_transform (l : LayerBase) (hw : DisplayDevice Transform)
  (y : HWCLayer) :
  hwc_transform (setGeometry l hw y) =
    let o := tr_getOrientation (transform (mDrawingState l)) in
    if Z.land o ROT_INVALID =? 0 then o else 0.
Proof.
  unfold setGeometry. simpl.
  destruct (negb (isOpaque l) || negb (alpha (mDrawingState l) =? 255));
    destruct (Z.land _ ROT_INVALID =? 0); reflexivity.
Qed.

(** C7.  [setGeometry] leaves blending enabled exactly when the layer is
    not opaque or its committed alpha is not 255, premultiplied when the
    layer uses premultiplied alpha and coverage otherwise; and it sets the
    descriptor's transform to 0 when the orientation of the committed
    transform has a bit of [ROT_INVALID], to the orientation otherwise. *)
Theorem setGeometry_blending_transform :
  forall (l : LayerBase) (hw : DisplayDevice Transform) (y : HWCLayer),
    let s := mDrawingState l in
    let d := setGeometry l hw y in
    (hwc_blending d <> HWC_BLENDING_NONE <->
     isOpaque l = false \/ alpha s <> 255) /\
    (isOpaque l = false \/ alpha s <> 255 ->
     hwc_blending d = if mPremultipliedAlpha l then HWC_BLENDING_PREMULT
                      else HWC_BLENDING_COVERAGE) /\
    (Z.land (tr_getOrientation (transform s)) ROT_INVALID <> 0 ->
     hwc_transform d = 0) /\
    (Z.land (tr_getOrientation (transform s)) ROT_INVALID = 0 ->
     hwc_transform d = tr_getOrientation (transform s)).
Proof.
  intros l hw y s d. subst d s.
  rewrite setGeometry_blending, setGeometry_transform. cbv zeta.
  assert (Hc : negb (isOpaque l) || negb (alpha (mDrawingState l) =? 255) = true
               <-> isOpaque l = false \/ alpha (mDrawingState l) <> 255).
  { rewrite orb_true_iff, !negb_true_iff, Z.eqb_neq. tauto. }
  split; [|split; [|split]].
  - destruct (negb (isOpaque l) || negb (alpha (mDrawingState l) =? 255)).
    + split; intros _.
      * apply Hc. reflexivity.
      * destruct (mPremultipliedAlpha l); discriminate.
    + split; intros H.
      * exfalso. apply H. reflexivity.
      * apply Hc in H. discriminate.
  - intros H. apply Hc in H. rewrite H. reflexivity.
  - intros H. apply Z.eqb_neq in H. rewrite H. reflexivity.
  - intros H. apply Z.eqb_eq in H. rewrite H. reflexivity.
Qed.

(** ** Transaction flags *)

Lemma land_lnot_self (a b : Z) : Z.land (Z.land a (Z.lnot b)) b = 0.
Proof.
  apply Z.bits_inj'. intros n Hn.
  rewrite !Z.land_spec, Z.lnot_spec, Z.bits_0 by lia.
  destruct (Z.testbit a n), (Z.testbit b n); reflexivity.
Qed.

Lemma land_lnot_disjoint (a b g : Z) :
  Z.land g b = 0 -> Z.land (Z.land a (Z.lnot b)) g = Z.land a g.
Proof.
  intros H. apply Z.bits_inj'. intros n Hn.
  assert (Hb : Z.testbit (Z.land g b) n = false) by (rewrite H; apply Z.bits_0).
  rewrite Z.land_spec in Hb.
  rewrite !Z.land_spec, Z.lnot_spec by lia.
  destruct (Z.testbit a n), (Z.testbit b n), (Z.testbit g n);
    simpl in *; congruence.
Qed.

(** X1.  [getTransactionFlags(flags)] is a fetch-and-clear: it returns the
    bits of [flags] that were set, clears exactly those (a second fetch of
    the same bits returns 0, every other bit is kept), and touches neither
    snapshot. *)
Theorem getTransactionFlags_fetch_and_clear :
  forall (l : LayerBase) (flags' : Z),
    let r := getTransactionFlags l flags' in
    fst r = Z.land (mTransactionFlags l) flags' /\
    Z.land (mTransactionFlags (snd r)) flags' = 0 /\
    fst (getTransactionFlags (snd r) flags') = 0 /\
    (forall g, Z.land g flags' = 0 ->
               Z.land (mTransactionFlags (snd r)) g
                 = Z.land (mTransactionFlags l) g) /\
    mCurrentState (snd r) = mCurrentState l /\
    mDrawingState (snd r) = mDrawingState l.
Proof.
  intros l flags' r. subst r. unfold getTransactionFlags. simpl.
  repeat split.
  - apply land_lnot_self.
  - apply land_lnot_self.
  - intros g Hg. apply land_lnot_disjoint. exact Hg.
Qed.

(** X2.  [setTransactionFlags(flags)] returns the flags as they were, and
    the bits it sets are all returned by the next
    [getTransactionFlags(flags)], also when that set follows an earlier
    fetch of the same bits. *)
Theorem setTransactionFlags_then_get :
  forall (l : LayerBase) (flags' : Z),
    fst (setTransactionFlags l flags') = mTransactionFlags l /\
    fst (getTransactionFlags (snd (setTransactionFlags l flags')) flags')
      = flags' /\
    fst (getTransactionFlags
           (snd (setTransactionFlags
                   (snd (getTransactionFlags l flags')) flags')) flags')
      = flags'.
Proof.
  intros l flags'. unfold setTransactionFlags, getTransactionFlags. simpl.
  repeat split; apply land_lor_absorb.
Qed.

(** X3.  [requestTransaction] returns [true] exactly when no bit of
    [eTransactionNeeded] was set before the call; it leaves a transaction
    pending, so, [eTransactionNeeded] being a non-empty mask, a second
    request returns [false]. *)
Theorem requestTransaction_first_only :
  forall (l : LayerBase),
    eTransactionNeeded <> 0 ->
    (fst (requestTransaction l) = true <->
     Z.land (mTransactionFlags l) eTransactionNeeded = 0) /\
    transactionPending (snd (requestTransaction l)) /\
    fst (requestTransaction (snd (requestTransaction l))) = false.
Proof.
  intros l He. unfold requestTransaction, setTransactionFlags. simpl.
  split; [apply Z.eqb_eq|]. split.
  - apply land_lor_absorb.
  - rewrite land_lor_absorb. apply Z.eqb_neq. exact He.
Qed.

Lemma call_true_pending (l : LayerBase) (m : Mutator) :
  fst (call l m) = true ->
  mTransactionFlags (snd (call l m))
    = Z.lor (mTransactionFlags l) eTransactionNeeded.
Proof.
  mutator_cases m; try split_if; simpl; intros H;
    try discriminate; reflexivity.
Qed.

Lemma call_false_same (l : LayerBase) (m : Mutator) :
  fst (call l m) = false -> snd (call l m) = l.
Proof.
  mutator_cases m; try split_if; simpl; intros H;
    try discriminate; reflexivity.
Qed.

(** X4.  A mutator call that returns [false] leaves the layer exactly as
    it was, so it requests no transaction.  After one that returns [true],
    fetching [eTransactionNeeded] returns the whole mask, and fetching it
    again returns 0: the transaction is observed once. *)
Theorem mutation_observed_once :
  forall (l : LayerBase) (m : Mutator),
    (fst (call l m) = false -> snd (call l m) = l) /\
    (fst (call l m) = true ->
     let r := getTransactionFlags (snd (call l m)) eTransactionNeeded in
     fst r = eTransactionNeeded /\
     fst (getTransactionFlags (snd r) eTransactionNeeded) = 0).
Proof.
  intros l m. split.
  - apply call_false_same.
  - intros Ht r. subst r. unfold getTransactionFlags. simpl.
    rewrite (call_true_pending l m Ht). split.
    + apply land_lor_absorb.
    + apply land_lnot_self.
Qed.

(** ** Mutators: what they leave alone *)

Lemma call_frame (l : LayerBase) (m : Mutator) :
  active (mCurrentState (snd (call l m))) = active (mCurrentState l) /\
  contentDirty (snd (call l m)) = contentDirty l /\
  mNeedsFiltering (snd (call l m)) = mNeedsFiltering l /\
  mFiltering (snd (call l m)) = mFiltering l /\
  mPremultipliedAlpha (snd (call l m)) = mPremultipliedAlpha l /\
  isOpaque (snd (call l m)) = isOpaque l.
Proof.
  mutator_cases m; try split_if; simpl; repeat split; reflexivity.
Qed.

(** X5.  No mutator, and no run of mutators, writes the pending [active]
    geometry ([setSize] and [setCrop] write [requested] only), the
    content-dirty flag, the filtering flags, the premultiplied-alpha flag
    or the opacity. *)
Theorem mutators_frame :
  forall (l : LayerBase) (ms : list Mutator),
    active (mCurrentState (callAll l ms)) = active (mCurrentState l) /\
    contentDirty (callAll l ms) = contentDirty l /\
    mNeedsFiltering (callAll l ms) = mNeedsFiltering l /\
    mFiltering (callAll l ms) = mFiltering l /\
    mPremultipliedAlpha (callAll l ms) = mPremultipliedAlpha l /\
    isOpaque (callAll l ms) = isOpaque l.
Proof.
  intros l ms. revert l. induction ms as [|m ms IH]; intros l.
  - simpl. repeat split; reflexivity.
  - unfold callAll in *. cbn [fold_left].
    destruct (IH (snd (call l m))) as (H1 & H2 & H3 & H4 & H5 & H6).
    destruct (call_frame l m) as (F1 & F2 & F3 & F4 & F5 & F6).
    rewrite H1, H2, H3, H4, H5, H6. auto 10.
Qed.

Lemma newFlags_testbit (cur flags' mask i : Z) :
  0 <= i < 32 ->
  Z.testbit (newFlags cur flags' mask) i =
    if Z.testbit mask i then Z.testbit flags' i else Z.testbit cur i.
Proof.
  intros Hi. unfold newFlags.
  rewrite to_u32_testbit, Z.lor_spec, !Z.land_spec, Z.lnot_spec by lia.
  replace (i <? 32) with true by (symmetry; apply Z.ltb_lt; lia).
  destruct (Z.testbit cur i), (Z.testbit flags' i), (Z.testbit mask i);
    reflexivity.
Qed.

(** X6.  After [setFlags(flags, mask)], whatever it returns, each of the
    32 bits of the pending flags is the bit of [flags] where [mask] has it
    set and the old bit where it has not. *)
Theorem setFlags_masked_bits :
  forall (l : LayerBase) (flags' mask i : Z),
    0 <= i < 32 ->
    Z.testbit (flags (mCurrentState (snd (setFlags l flags' mask)))) i =
      if Z.testbit mask i then Z.testbit flags' i
      else Z.testbit (flags (mCurrentState l)) i.
Proof.
  intros l flags' mask i Hi. unfold setFlags.
  destruct (flags (mCurrentState l)
              =? newFlags (flags (mCurrentState l)) flags' mask) eqn:E; simpl.
  - apply Z.eqb_eq in E. rewrite E at 1. apply newFlags_testbit. exact Hi.
  - apply newFlags_testbit. exact Hi.
Qed.

(** ** The commit step, continued *)

Lemma doTransaction_state (l : LayerBase) (flags' : Z) :
  let cur' :=
    if Z.land flags' eDontUpdateGeometryState =? 0
    then set_active (mCurrentState l) (requested (mCurrentState l))
    else mCurrentState l in
  mCurrentState (snd (doTransaction l flags')) = cur' /\
  mDrawingState (snd (doTransaction l flags')) = cur' /\
  mTransactionFlags (snd (doTransaction l flags')) = mTransactionFlags l /\
  mPremultipliedAlpha (snd (doTransaction l flags')) = mPremultipliedAlpha l /\
  isOpaque (snd (doTransaction l flags')) = isOpaque l.
Proof.
  unfold doTransaction.
  destruct (Z.land flags' eDontUpdateGeometryState =? 0); simpl;
    destruct (Geometry_eqb _ _); destruct (_ =? _); simpl;
    repeat split; reflexivity.
Qed.

Lemma doTransaction_settled (l : LayerBase) (flags' : Z) :
  mCurrentState l = mDrawingState l ->
  Z.land flags' eDontUpdateGeometryState <> 0 \/
  requested (mCurrentState l) = active (mCurrentState l) ->
  doTransaction l flags' = (flags', l).
Proof.
  intros Heq Hg.
  assert (Hl1 :
    (if Z.land flags' eDontUpdateGeometryState =? 0
     then set_mCurrentState l
            (set_active (mCurrentState l) (requested (mCurrentState l)))
     else l) = l).
  { destruct Hg as [Hg|Hg].
    - apply Z.eqb_neq in Hg. rewrite Hg. reflexivity.
    - rewrite set_active_same by exact Hg.
      rewrite set_mCurrentState_same. destruct (_ =? _); reflexivity. }
  unfold doTransaction. rewrite Hl1, <- Heq.
  rewrite Geometry_eqb_refl, Z.eqb_refl.
  unfold commitTransaction. rewrite Heq at 1.
  rewrite set_mDrawingState_same. reflexivity.
Qed.

(** X7.  [doTransaction] always commits: afterwards the committed snapshot
    equals the pending one, which is the old pending snapshot with
    [active] replaced by [requested] unless [eDontUpdateGeometryState] was
    passed; the transaction flags are not consumed by it. *)
Theorem doTransaction_commits :
  forall (l : LayerBase) (flags' : Z),
    let l' := snd (doTransaction l flags') in
    mDrawingState l' = mCurrentState l' /\
    (Z.land flags' eDontUpdateGeometryState = 0 ->
     active (mCurrentState l') = requested (mCurrentState l) /\
     requested (mCurrentState l') = requested (mCurrentState l)) /\
    (Z.land flags' eDontUpdateGeometryState <> 0 ->
     mCurrentState l' = mCurrentState l) /\
    mTransactionFlags l' = mTransactionFlags l.
Proof.
  intros l flags' l'. subst l'.
  destruct (doTransaction_state l flags') as (Hc & Hd & Ht & _).
  cbv zeta in Hc, Hd. rewrite Hc, Hd.
  split; [reflexivity|]. split; [|split; [|exact Ht]].
  - intros H. apply Z.eqb_eq in H. rewrite H. split; reflexivity.
  - intros H. apply Z.eqb_neq in H. rewrite H. reflexivity.
Qed.

(** X8.  Commit is idempotent: after a [doTransaction] that folds the
    requested geometry in (no [eDontUpdateGeometryState]), a second
    [doTransaction], with any flags, returns its input flags and leaves
    the layer as it is. *)
Theorem doTransaction_twice :
  forall (l : LayerBase) (flags1 flags2 : Z),
    Z.land flags1 eDontUpdateGeometryState = 0 ->
    doTransaction (snd (doTransaction l flags1)) flags2
      = (flags2, snd (doTransaction l flags1)).
Proof.
  intros l flags1 flags2 H.
  destruct (doTransaction_state l flags1) as (Hc & Hd & _).
  cbv zeta in Hc, Hd. apply Z.eqb_eq in H. rewrite H in Hc, Hd.
  apply doTransaction_settled.
  - rewrite Hc, Hd. reflexivity.
  - right. rewrite Hc. reflexivity.
Qed.

Lemma land_lor_keep (a b : Z) : Z.land (Z.lor a b) a = a.
Proof. rewrite Z.lor_comm. apply land_lor_absorb. Qed.

(** X9.  The flags [doTransaction] returns are its input flags, with at
    most [eVisibleRegion] added: no input bit is dropped. *)
Theorem doTransaction_flags :
  forall (l : LayerBase) (flags' : Z),
    let r := fst (doTransaction l flags') in
    (r = flags' \/ r = Z.lor flags' eVisibleRegion) /\
    Z.land r flags' = flags'.
Proof.
  intros l flags' r. subst r. unfold doTransaction.
  destruct (Z.land flags' eDontUpdateGeometryState =? 0); simpl;
    destruct (Geometry_eqb _ _); destruct (_ =? _); simpl;
    rewrite <- ?Z.lor_assoc, ?Z.lor_diag;
    (split; [auto|]); try apply Z.land_diag; apply land_lor_keep.
Qed.

Lemma to_i32_succ_neq (s : Z) :
  INT32_MIN <= s <= INT32_MAX -> to_i32 (s + 1) <> s.
Proof.
  unfold INT32_MIN, INT32_MAX. intros Hs.
  destruct (Z.eq_dec s (2 ^ 31 - 1)) as [->|Hne].
  - vm_compute. discriminate.
  - rewrite to_i32_small by lia. lia.
Qed.

Lemma call_bumped (l : LayerBase) (m : Mutator) :
  fst (call l m) = true -> bumps m = true ->
  sequence (mCurrentState (snd (call l m)))
    = to_i32 (sequence (mCurrentState l) + 1).
Proof.
  mutator_cases m; try split_if; simpl; intros H Hb;
    try discriminate; reflexivity.
Qed.

Lemma doTransaction_seq_changed (l : LayerBase) (flags' : Z) :
  sequence (mCurrentState l) <> sequence (mDrawingState l) ->
  Z.land (fst (doTransaction l flags')) eVisibleRegion = eVisibleRegion /\
  contentDirty (snd (doTransaction l flags')) = true /\
  mNeedsFiltering (snd (doTransaction l flags'))
    = transformNeedsFiltering (transform (mCurrentState l)).
Proof.
  intros Hs. apply Z.eqb_neq in Hs. unfold doTransaction.
  destruct (Z.land flags' eDontUpdateGeometryState =? 0); simpl;
    rewrite Hs; simpl; repeat split; apply land_lor_absorb.
Qed.

(** X10.  When the pending and committed sequences agree, a call of any
    mutator but [setSize] that returns [true] is seen by the next
    [doTransaction]: it reports [eVisibleRegion], marks the content dirty,
    recomputes the filtering flag from the new pending transform and
    commits the new pending snapshot. *)
Theorem mutation_then_commit :
  forall (l : LayerBase) (m : Mutator) (flags' : Z),
    sequence (mCurrentState l) = sequence (mDrawingState l) ->
    INT32_MIN <= sequence (mCurrentState l) <= INT32_MAX ->
    fst (call l m) = true ->
    bumps m = true ->
    let l1 := snd (call l m) in
    let r := doTransaction l1 flags' in
    Z.land (fst r) eVisibleRegion = eVisibleRegion /\
    contentDirty (snd r) = true /\
    mNeedsFiltering (snd r)
      = transformNeedsFiltering (transform (mCurrentState l1)) /\
    mDrawingState (snd r) = mCurrentState (snd r) /\
    active (mCurrentState l1) = active (mCurrentState l).
Proof.
  intros l m flags' Hs Hr Ht Hb l1 r. subst r l1.
  assert (Hne : sequence (mCurrentState (snd (call l m)))
                <> sequence (mDrawingState (snd (call l m)))).
  { rewrite call_drawing, (call_bumped l m Ht Hb), <- Hs.
    apply to_i32_succ_neq. exact Hr. }
  destruct (doTransaction_seq_changed _ flags' Hne) as (H1 & H2 & H3).
  destruct (doTransaction_state (snd (call l m)) flags') as (Hc & Hd & _).
  cbv zeta in Hc, Hd.
  repeat split; try assumption.
  - rewrite Hc, Hd. reflexivity.
  - apply call_frame.
Qed.

(** X11.  [forceVisibilityTransaction] changes nothing in the pending
    snapshot but the sequence and marks a transaction pending; when the
    sequences agreed before, the next [doTransaction] reports
    [eVisibleRegion] and marks the content dirty. *)
Theorem forceVisibilityTransaction_seen :
  forall (l : LayerBase) (flags' : Z),
    sequence (mCurrentState l) = sequence (mDrawingState l) ->
    INT32_MIN <= sequence (mCurrentState l) <= INT32_MAX ->
    let l1 := forceVisibilityTransaction l in
    mCurrentState l1 = bump_sequence (mCurrentState l) /\
    mDrawingState l1 = mDrawingState l /\
    transactionPending l1 /\
    Z.land (fst (doTransaction l1 flags')) eVisibleRegion = eVisibleRegion /\
    contentDirty (snd (doTransaction l1 flags')) = true.
Proof.
  intros l flags' Hs Hr l1. subst l1.
  assert (Hne : sequence (mCurrentState (forceVisibilityTransaction l))
                <> sequence (mDrawingState (forceVisibilityTransaction l))).
  { simpl. rewrite <- Hs. apply to_i32_succ_neq. exact Hr. }
  destruct (doTransaction_seq_changed _ flags' Hne) as (H1 & H2 & _).
  repeat split; try assumption.
  unfold transactionPending. simpl. apply land_lor_absorb.
Qed.

(** X12.  A resize is folded in by the commit, not by the mutator.  On a
    settled layer (pending equals committed, requested equals active), after
    [setSize] with a new size a plain [doTransaction] makes the new size
    active and reports [eVisibleRegion] without marking the content dirty;
    a [doTransaction] given [eDontUpdateGeometryState] returns its flags
    unchanged and keeps the old active size, the new one staying
    requested. *)
Theorem resize_deferred_to_commit :
  forall (l : LayerBase) (w' h' flags' : Z),
    mCurrentState l = mDrawingState l ->
    requested (mCurrentState l) = active (mCurrentState l) ->
    w' <> w (requested (mCurrentState l)) \/
    h' <> h (requested (mCurrentState l)) ->
    let l1 := snd (setSize l w' h') in
    let r := doTransaction l1 flags' in
    fst (setSize l w' h') = true /\
    active (mCurrentState l1) = active (mCurrentState l) /\
    contentDirty (snd r) = contentDirty l /\
    (Z.land flags' eDontUpdateGeometryState = 0 ->
     Z.land (fst r) eVisibleRegion = eVisibleRegion /\
     w (active (mDrawingState (snd r))) = w' /\
     h (active (mDrawingState (snd r))) = h') /\
    (Z.land flags' eDontUpdateGeometryState <> 0 ->
     fst r = flags' /\
     active (mDrawingState (snd r)) = active (mDrawingState l) /\
     w (requested (mDrawingState (snd r))) = w' /\
     h (requested (mDrawingState (snd r))) = h').
Proof.
  intros l w' h' flags' Heq Hra Hne l1 r.
  assert (Hg : (w (requested (mCurrentState l)) =? w') &&
               (h (requested (mCurrentState l)) =? h') = false).
  { apply andb_false_iff.
    destruct Hne as [H|H]; [left|right]; apply Z.eqb_neq; congruence. }
  assert (Hl1 : setSize l w' h' =
    (true, snd (requestTransaction
                  (set_mCurrentState l
                     (set_requested (mCurrentState l)
                        (mkGeometry w' h' (crop (requested (mCurrentState l)))))))))
    by (unfold setSize; rewrite Hg; reflexivity).
  subst r l1. rewrite Hl1. cbn [fst snd].
  set (l1 := snd (requestTransaction _)).
  assert (Hc1 : mCurrentState l1 =
                set_requested (mCurrentState l)
                  (mkGeometry w' h' (crop (requested (mCurrentState l)))))
    by reflexivity.
  assert (Hd1 : mDrawingState l1 = mDrawingState l) by reflexivity.
  assert (Hne' : Geometry_eqb (active (mDrawingState l))
                   (mkGeometry w' h' (crop (requested (mCurrentState l))))
                 = false).
  { rewrite <- Heq, <- Hra. unfold Geometry_eqb. cbn [w h crop].
    rewrite Hg. reflexivity. }
  split; [reflexivity|]. split; [reflexivity|].
  unfold doTransaction. rewrite Hd1, Hc1.
  destruct (Z.land flags' eDontUpdateGeometryState =? 0) eqn:Ed.
  - cbn -[Z.land Z.lor Geometry_eqb]. rewrite Hne'.
    rewrite <- Heq, Z.eqb_refl. cbn -[Z.land Z.lor].
    split; [reflexivity|]. split.
    + intros _. split; [apply land_lor_absorb|]. split; reflexivity.
    + intros H. apply Z.eqb_neq in H. congruence.
  - rewrite Hc1. cbn -[Z.land Z.lor Geometry_eqb].
    rewrite Heq, Geometry_eqb_refl, Z.eqb_refl. cbn -[Z.land Z.lor].
    split; [reflexivity|]. split.
    + intros H. apply Z.eqb_eq in H. congruence.
    + intros _. repeat split; reflexivity.
Qed.

(** ** Visibility across the commit *)

(** X13.  After [doTransaction], [isVisible] answers for what was
    pending: it is true exactly when the pending flags had no hidden bit
    and the pending alpha was nonzero.  So [setAlpha(0)] followed by a
    commit makes the layer invisible, and, [eLayerHidden] being a
    non-empty 32-bit mask, so does [setFlags(eLayerHidden, eLayerHidden)]
    followed by a commit. *)
Theorem isVisible_after_commit :
  forall (l : LayerBase) (flags' : Z),
    0 < eLayerHidden < 2 ^ 32 ->
    (isVisible (snd (doTransaction l flags')) = true <->
     Z.land (flags (mCurrentState l)) eLayerHidden = 0 /\
     alpha (mCurrentState l) <> 0) /\
    isVisible (snd (doTransaction (snd (setAlpha l 0)) flags')) = false /\
    isVisible (snd (doTransaction
                      (snd (setFlags l eLayerHidden eLayerHidden)) flags'))
      = false.
Proof.
  intros l flags' He.
  assert (Hv : forall l0 : LayerBase,
    isVisible (snd (doTransaction l0 flags')) =
      (Z.land (flags (mCurrentState l0)) eLayerHidden =? 0)
      && negb (alpha (mCurrentState l0) =? 0)).
  { intros l0. unfold isVisible.
    destruct (doTransaction_state l0 flags') as (_ & Hd & _).
    cbv zeta in Hd. rewrite Hd.
    destruct (Z.land flags' eDontUpdateGeometryState =? 0); reflexivity. }
  split; [|split].
  - rewrite Hv, andb_true_iff, negb_true_iff, Z.eqb_eq, Z.eqb_neq. tauto.
  - rewrite Hv. apply andb_false_iff. right.
    unfold setAlpha. destruct (alpha (mCurrentState l) =? 0) eqn:E; simpl.
    + rewrite E. reflexivity.
    + reflexivity.
  - rewrite Hv. apply andb_false_iff. left. apply Z.eqb_neq.
    assert (Hnf : forall c, Z.land (newFlags c eLayerHidden eLayerHidden)
                              eLayerHidden = eLayerHidden).
    { intros c. apply Z.bits_inj'. intros n Hn.
      rewrite Z.land_spec.
      destruct (Z.ltb_spec n 32) as [Hlt|Hge].
      - rewrite newFlags_testbit by lia.
        destruct (Z.testbit eLayerHidden n);
          [reflexivity|apply andb_false_r].
      - assert (Z.testbit eLayerHidden n = false) as ->.
        { rewrite <- (Z.mod_small eLayerHidden (2 ^ 32)) by lia.
          apply Z.mod_pow2_bits_high. lia. }
        apply andb_false_r. }
    unfold setFlags.
    destruct (flags (mCurrentState l)
                =? newFlags (flags (mCurrentState l)) eLayerHidden eLayerHidden)
      eqn:E; simpl.
    + apply Z.eqb_eq in E. rewrite E, Hnf. lia.
    + rewrite Hnf. lia.
Qed.

(** ** Initial state *)

(** X14.  [initStates(w, h, flags)] leaves pending and committed snapshots
    equal, with requested equal to active, alpha 255, z, layer stack and
    sequence 0 and an invalid crop.  The layer is then visible exactly when
    [flags] has no [eHidden] bit (for a non-empty [eLayerHidden]), its
    bounds are the whole window, and a first [doTransaction] changes
    nothing. *)
Theorem initStates_settled :
  forall (l : LayerBase) (w' h' flags' g : Z),
    eLayerHidden <> 0 ->
    let l' := initStates l w' h' flags' in
    mDrawingState l' = mCurrentState l' /\
    requested (mCurrentState l') = active (mCurrentState l') /\
    active (mCurrentState l') = mkGeometry w' h' Rect_invalid /\
    alpha (mCurrentState l') = 255 /\
    z (mCurrentState l') = 0 /\
    layerStack (mCurrentState l') = 0 /\
    sequence (mCurrentState l') = 0 /\
    (isVisible l' = true <-> Z.land flags' eHidden = 0) /\
    computeBounds l' = Rect_wh w' h' /\
    doTransaction l' g = (g, l').
Proof.
  intros l w' h' flags' g He l'.
  assert (Hd : mDrawingState l' = mCurrentState l').
  { subst l'. unfold initStates.
    destruct (Z.land flags' eNonPremultiplied =? 0); reflexivity. }
  assert (Hc : mCurrentState l' =
    mkState (mkGeometry w' h' Rect_invalid) (mkGeometry w' h' Rect_invalid)
            0 0 255 (if Z.land flags' eHidden =? 0 then 0 else eLayerHidden) 0
            (tr_set (transform (mCurrentState l)) Float32.zero Float32.zero)
            (transparentRegion (mCurrentState l))).
  { subst l'. unfold initStates.
    destruct (Z.land flags' eNonPremultiplied =? 0); reflexivity. }
  split; [exact Hd|].
  rewrite Hc. cbn [requested active alpha z layerStack sequence].
  repeat (split; [reflexivity|]).
  split; [|split].
  - unfold isVisible. rewrite Hd, Hc. cbn [flags alpha].
    destruct (Z.land flags' eHidden =? 0) eqn:E.
    + apply Z.eqb_eq in E. rewrite Z.land_0_l. simpl. tauto.
    + apply Z.eqb_neq in E. rewrite Z.land_diag.
      apply Z.eqb_neq in He. rewrite He. simpl. split; [discriminate|tauto].
  - unfold computeBounds. rewrite Hd, Hc. reflexivity.
  - apply doTransaction_settled.
    + symmetry. exact Hd.
    + right. rewrite Hc. reflexivity.
Qed.

(** ** Bounds *)


End Properties.

(** ** Handing out the client surface *)

Section ClientProperties.
Context {Transform Region ISurface IBinder : Type}.
Context {SO : SurfaceOps ISurface IBinder}.

Local Abbreviation Client := (LayerBaseClient Transform Region IBinder).

Lemma getSurface_handed_out (createSurface : Client -> ISurface) (c : Client) :
  mHasSurface c = true -> getSurface createSurface c = Aborted.
Proof. intros H. unfold getSurface. rewrite H. reflexivity. Qed.

(** C9.  On a layer as its constructor leaves it, the first [getSurface]
    returns a surface and marks it handed out; the second call, and any
    call on a layer whose surface is handed out, aborts. *)
Theorem getSurface_twice_aborts :
  forall (createSurface : Client -> ISurface)
         (b : LayerBase Transform Region),
    (exists s c1,
        getSurface createSurface (LayerBaseClient_new b) = Returned (s, c1) /\
        mHasSurface c1 = true /\
        mClientSurfaceBinder c1 = Some (asBinder s) /\
        base c1 = b /\
        getSurface createSurface c1 = Aborted) /\
    (forall c : Client,
        mHasSurface c = true -> getSurface createSurface c = Aborted) /\
    (forall c : Client,
        mHasSurface c = false ->
        exists s c1,
          getSurface createSurface c = Returned (s, c1) /\
          mHasSurface c1 = true /\
          getSurface createSurface c1 = Aborted).
Proof.
  intros createSurface b. split; [|split].
  - eexists. eexists. split; [reflexivity|]. simpl. auto.
  - intros c. apply getSurface_handed_out.
  - intros c Hc. unfold getSurface at 1. rewrite Hc.
    eexists. eexists. split; [reflexivity|]. simpl. auto.
Qed.

End ClientProperties.

(** ** Frame latch *)

Section LatchProperties.
Context {C : Constants}.
Context {Transform : Type} {TO : TransformOps Transform}.
Context {Region : Type} {RO : RegionOps Region}.

Lemma to_i32_add_l (a b : Z) : to_i32 (to_i32 a + b) = to_i32 (a + b).
Proof.
  unfold to_i32. f_equal.
  replace ((a + 2 ^ 31) mod 2 ^ 32 - 2 ^ 31 + b + 2 ^ 31)
    with ((a + 2 ^ 31) mod 2 ^ 32 + b) by lia.
  rewrite Z.add_mod_idemp_l by lia. f_equal. lia.
Qed.

(** [n] notifications add [n] to the counter, as an [int32_t]. *)
Lemma onFrameAvailable_iter (n : nat) (l : Layer.t) :
  INT32_MIN <= Layer.mQueuedFrames l <= INT32_MAX ->
  Layer.mQueuedFrames (Nat.iter n Layer.onFrameAvailable l) =
    to_i32 (Layer.mQueuedFrames l + Z.of_nat n).
Proof.
  intros Hr. induction n as [|n IH].
  - cbn [Nat.iter Z.of_nat]. rewrite Z.add_0_r, to_i32_small; [reflexivity|].
    unfold INT32_MIN, INT32_MAX in Hr. lia.
  - rewrite Nat2Z.inj_succ, Nat.iter_succ.
    unfold Layer.onFrameAvailable at 1. cbn [Layer.mQueuedFrames].
    rewrite IH, to_i32_add_l. f_equal. lia.
Qed.

Lemma produce_all (bs : list Layer.BufferItem) (l : Layer.t) :
  INT32_MIN <= Layer.mQueuedFrames l <= INT32_MAX ->
  Layer.mQueuedFrames (fold_left Layer.produce bs l) =
    to_i32 (Layer.mQueuedFrames l + Z.of_nat (length bs)) /\
  Layer.queued (fold_left Layer.produce bs l) = Layer.queued l ++ bs.
Proof.
  revert l. induction bs as [|b bs IH]; intros l Hr.
  - cbn [fold_left length Z.of_nat]. rewrite app_nil_r, Z.add_0_r.
    split; [|reflexivity].
    rewrite to_i32_small; [reflexivity|].
    unfold INT32_MIN, INT32_MAX in Hr. lia.
  - cbn [fold_left length].
    assert (Hr' : INT32_MIN <= Layer.mQueuedFrames (Layer.produce l b)
                  <= INT32_MAX).
    { cbn [Layer.produce Layer.onFrameAvailable Layer.queueBuffer
           Layer.mQueuedFrames].
      pose proof (to_i32_range (Layer.mQueuedFrames l + 1)).
      unfold INT32_MIN, INT32_MAX. lia. }
    destruct (IH (Layer.produce l b) Hr') as [H1 H2].
    rewrite H1, H2.
    cbn [Layer.produce Layer.onFrameAvailable Layer.queueBuffer
         Layer.mQueuedFrames Layer.queued].
    rewrite to_i32_add_l, <- app_assoc. split; [|reflexivity].
    f_equal. lia.
Qed.

(** C8 (amended).  The counter is an [int32_t]: [n] calls of
    [onFrameAvailable] on a layer with no unlatched frame leave it at [n]
    for [n] up to 2^31 - 1.  After the producer has queued and announced
    the buffers [bs ++ [b]] on such a layer, the counter is their number;
    one [latchBuffer] lowers it by exactly one, adopts handle, crop,
    transform and timestamp of the newest buffer [b] and drops the older
    ones.  Whenever the counter is zero, whatever is queued, [latchBuffer]
    returns the empty region and changes nothing; [latchBuffer] of the base
    class always does. *)
Theorem latch_counting :
  forall (invalidated : Layer.t -> Layer.BufferItem -> Region)
         (l : Layer.t) (bs : list Layer.BufferItem) (b : Layer.BufferItem),
    Layer.mQueuedFrames l = 0 ->
    let n := Z.of_nat (length (bs ++ [b])) in
    n <= INT32_MAX ->
    let l1 := fold_left Layer.produce (bs ++ [b]) l in
    let l2 := snd (Layer.latchBuffer invalidated l1) in
    (forall k, Z.of_nat k <= INT32_MAX ->
        Layer.mQueuedFrames (Nat.iter k Layer.onFrameAvailable l) = Z.of_nat k) /\
    Layer.mQueuedFrames l1 = n /\
    Layer.mQueuedFrames l2 = n - 1 /\
    Layer.mActiveBuffer l2 = Some (Layer.buf_handle b) /\
    Layer.mCurrentCrop l2 = Layer.buf_crop b /\
    Layer.mCurrentTransform l2 = Layer.buf_transform b /\
    Layer.mTimestamp l2 = Layer.buf_timestamp b /\
    Layer.queued l2 = [] /\
    (forall l0 : Layer.t,
        Layer.mQueuedFrames l0 = 0 ->
        Layer.latchBuffer invalidated l0 = (Region_empty, l0)) /\
    (forall (lb : LayerBase Transform Region) (r : bool),
        latchBuffer lb r = (Region_empty, lb)).
Proof.
  intros invalidated l bs b H0 n Hn l1 l2.
  assert (Hr : INT32_MIN <= Layer.mQueuedFrames l <= INT32_MAX)
    by (rewrite H0; unfold INT32_MIN, INT32_MAX; lia).
  destruct (produce_all (bs ++ [b]) l Hr) as [Hc Hl].
  fold l1 in Hc, Hl. rewrite H0 in Hc. fold n in Hc.
  assert (Hn0 : 0 < n).
  { subst n. rewrite length_app. simpl. lia. }
  unfold INT32_MAX in Hn.
  rewrite Z.add_0_l, to_i32_small in Hc by lia.
  assert (Hl2 : l2 =
    Layer.mkLayer (to_i32 (Layer.mQueuedFrames l1 - 1)) []
            (Some (Layer.buf_handle b))
            (Layer.buf_crop b) (Layer.buf_transform b) (Layer.buf_timestamp b) (Layer.wake l1)).
  { subst l2. unfold Layer.latchBuffer.
    destruct (Z.eqb_spec (Layer.mQueuedFrames l1) 0) as [Hle|_]; [lia|].
    rewrite Hl, app_assoc, rev_unit. reflexivity. }
  split.
  - intros k Hk. rewrite onFrameAvailable_iter, H0 by exact Hr.
    unfold INT32_MAX in Hk. rewrite Z.add_0_l, to_i32_small by lia.
    reflexivity.
  - rewrite Hl2. cbn [Layer.mQueuedFrames Layer.mActiveBuffer
                      Layer.mCurrentCrop Layer.mCurrentTransform
                      Layer.mTimestamp Layer.queued].
    rewrite Hc, to_i32_small by lia.
    repeat (split; [reflexivity|]). split.
    + intros l0 Hz. unfold Layer.latchBuffer. rewrite Hz. reflexivity.
    + reflexivity.
Qed.

End LatchProperties.

(** ** [float(n)] for an [int] [n] *)

Lemma digits2_pos_size (p : positive) : digits2_pos p = Pos.size p.
Proof. induction p; simpl; congruence. Qed.

Lemma digits2_pos_log2 (p : positive) :
  Z.pos (digits2_pos p) = Z.log2 (Z.pos p) + 1.
Proof.
  rewrite digits2_pos_size.
  destruct p; simpl; rewrite ?Pos2Z.inj_succ; lia.
Qed.

Lemma digits2_pos_bounds (p : positive) :
  2 ^ (Z.pos (digits2_pos p) - 1) <= Z.pos p < 2 ^ Z.pos (digits2_pos p).
Proof.
  rewrite digits2_pos_log2.
  pose proof (Z.log2_spec (Z.pos p) ltac:(lia)) as H.
  replace (Z.log2 (Z.pos p) + 1 - 1) with (Z.log2 (Z.pos p)) by lia.
  replace (Z.log2 (Z.pos p) + 1) with (Z.succ (Z.log2 (Z.pos p))) by lia.
  exact H.
Qed.

Lemma digits2_pos_unique (p : positive) (d : Z) :
  2 ^ (d - 1) <= Z.pos p < 2 ^ d -> 0 < d -> Z.pos (digits2_pos p) = d.
Proof.
  intros H Hd. rewrite digits2_pos_log2.
  rewrite (Z.log2_unique (Z.pos p) (d - 1)); try lia.
  replace (Z.succ (d - 1)) with d by lia. exact H.
Qed.

Lemma iter_xO_mul (k p : positive) :
  Z.pos (Pos.iter xO p k) = Z.pos p * 2 ^ Z.pos k.
Proof.
  revert p. induction k using Pos.peano_ind; intros p.
  - simpl. lia.
  - rewrite Pos.iter_succ, Pos2Z.inj_succ, Z.pow_succ_r by lia.
    rewrite Pos2Z.inj_xO, IHk. lia.
Qed.

(** A mantissa of exactly 24 digits needs no shift. *)
Lemma shr_fexp_canonical (m : positive) (e : Z) :
  digits2_pos m = 24%positive -> -149 <= e ->
  shr_fexp Float32.prec Float32.emax (Z.pos m) e loc_Exact
    = (Build_shr_record (Z.pos m) false false, e).
Proof.
  intros Hd He.
  unfold shr_fexp, fexp, emin, Float32.prec, Float32.emax.
  cbn [Zdigits2]. rewrite Hd.
  replace (Z.max (24 + e - 24) (3 - 128 - 24) - e) with 0 by lia.
  reflexivity.
Qed.

Lemma round_tail (s : bool) (m : positive) (e : Z) :
  digits2_pos m = 24%positive -> -149 <= e <= 104 ->
  (let '(mrs, e') :=
     shr_fexp Float32.prec Float32.emax (Z.pos m) e loc_Exact in
   match shr_m mrs with
   | 0 => S754_zero s
   | Z.pos m' =>
       if e' <=? Float32.emax - Float32.prec
       then S754_finite s m' e' else S754_infinity s
   | Z.neg _ => S754_nan
   end) = S754_finite s m e.
Proof.
  intros Hd He. rewrite shr_fexp_canonical by (assumption || lia).
  cbn [shr_m].
  replace (e <=? Float32.emax - Float32.prec) with true; [reflexivity|].
  symmetry. apply Z.leb_le. unfold Float32.emax, Float32.prec. lia.
Qed.

(** Rounding a mantissa of exactly 24 digits changes nothing. *)
Lemma round_aux_canonical (s : bool) (m : positive) (e : Z) :
  digits2_pos m = 24%positive -> -149 <= e <= 104 ->
  binary_round_aux Float32.prec Float32.emax s (Z.pos m) e loc_Exact
    = S754_finite s m e.
Proof.
  intros Hd He. unfold binary_round_aux.
  rewrite shr_fexp_canonical by (assumption || lia).
  cbn [shr_m loc_of_shr_record round_nearest_even].
  apply round_tail; assumption.
Qed.

Lemma one_eq : Float32.one = S754_finite false 8388608 (-23).
Proof. reflexivity. Qed.

(** [x / x] is exactly 1 for a finite nonzero [x]. *)
Lemma div_self (s : bool) (m : positive) (e : Z) :
  Float32.div (S754_finite s m e) (S754_finite s m e) = Float32.one.
Proof.
  unfold Float32.div, SFdiv.
  assert (Hc : SFdiv_core_binary Float32.prec Float32.emax (Z.pos m) e (Z.pos m) e
               = (2 ^ 24, -24, loc_Exact)).
  { unfold SFdiv_core_binary.
    rewrite !Z.sub_diag.
    change (Z.min (fexp Float32.prec Float32.emax 0) 0) with (-24).
    change (0 - -24) with 24.
    cbv beta iota zeta.
    assert (Hq : Z.div_eucl (Z.shiftl (Z.pos m) 24) (Z.pos m) = (2 ^ 24, 0)).
    { rewrite Z.shiftl_mul_pow2 by lia.
      pose proof (Z.div_eucl_eq (Z.pos m * 2 ^ 24) (Z.pos m) ltac:(lia)) as Heq.
      pose proof (Z.mod_pos_bound (Z.pos m * 2 ^ 24) (Z.pos m) ltac:(lia)) as Hb.
      unfold Z.modulo in Hb.
      destruct (Z.div_eucl (Z.pos m * 2 ^ 24) (Z.pos m)) as [q r].
      assert (r = 0 /\ q = 2 ^ 24) as [-> ->]; [|reflexivity].
      assert (Z.pos m * (2 ^ 24 - q) = r) by lia.
      assert (2 ^ 24 - q = 0) by nia.
      split; nia. }
    rewrite Hq.
    unfold new_location, new_location_even, new_location_odd.
    destruct (Z.even (Z.pos m)); reflexivity. }
  rewrite Hc. rewrite xorb_nilpotent. reflexivity.
Qed.

(** [x * 1] is [x] for a finite [x] with a full mantissa. *)
Lemma mul_one (s : bool) (m : positive) (e : Z) :
  digits2_pos m = 24%positive -> -126 <= e <= 104 ->
  Float32.mul (S754_finite s m e) Float32.one = S754_finite s m e.
Proof.
  intros Hd He. rewrite one_eq. unfold Float32.mul, SFmul.
  rewrite xorb_false_r.
  rewrite Pos.mul_comm.
  change (8388608 * m)%positive
    with (m~0~0~0~0~0~0~0~0~0~0~0~0~0~0~0~0~0~0~0~0~0~0~0)%positive.
  set (M := (m~0~0~0~0~0~0~0~0~0~0~0~0~0~0~0~0~0~0~0~0~0~0~0)%positive).
  assert (Hs : shr_fexp Float32.prec Float32.emax (Z.pos M) (e + -23) loc_Exact
               = (Build_shr_record (Z.pos m) false false, e)).
  { unfold shr_fexp, fexp, emin, Float32.prec, Float32.emax.
    subst M. cbn [Zdigits2 digits2_pos]. rewrite Hd.
    cbn [Pos.succ].
    replace (Z.max (47 + (e + -23) - 24) (3 - 128 - 24) - (e + -23)) with 23 by lia.
    cbn [shr shr_record_of_loc].
    f_equal. lia. }
  unfold binary_round_aux. rewrite Hs.
  cbn [shr_m loc_of_shr_record round_nearest_even].
  apply round_tail; [exact Hd|lia].
Qed.

Lemma shr_1_div2 (r : shr_record) :
  0 <= shr_m r -> shr_m (shr_1 r) = shr_m r / 2.
Proof.
  destruct r as [m r s]. cbn [shr_m]. intros Hm.
  destruct m as [|[p|p|]|]; cbn [shr_1 shr_m].
  - reflexivity.
  - apply (Z.div_unique _ _ _ 1); lia.
  - apply (Z.div_unique _ _ _ 0); lia.
  - reflexivity.
  - lia.
Qed.

Lemma iter_shr_1_div (k : positive) (r : shr_record) :
  0 <= shr_m r ->
  shr_m (iter_pos shr_1 k r) = shr_m r / 2 ^ Z.pos k.
Proof.
  revert r. induction k as [k IH|k IH|]; intros r Hr.
  - cbn [iter_pos].
    assert (H1 : 0 <= shr_m (shr_1 r))
      by (rewrite shr_1_div2 by exact Hr; apply Z.div_pos; lia).
    assert (H2 : 0 <= shr_m (iter_pos shr_1 k (shr_1 r)))
      by (rewrite IH by exact H1; apply Z.div_pos; [exact H1|];
          apply Z.pow_pos_nonneg; lia).
    rewrite IH by exact H2. rewrite IH by exact H1.
    rewrite shr_1_div2 by exact Hr.
    rewrite !Z.div_div by (try apply Z.pow_pos_nonneg; lia).
    f_equal.
    replace (Z.pos k~1) with (1 + (Z.pos k + Z.pos k)) by lia.
    rewrite !Z.pow_add_r by lia. reflexivity.
  - cbn [iter_pos].
    assert (H1 : 0 <= shr_m (iter_pos shr_1 k r))
      by (rewrite IH by exact Hr; apply Z.div_pos; [exact Hr|];
          apply Z.pow_pos_nonneg; lia).
    rewrite IH by exact H1. rewrite IH by exact Hr.
    rewrite !Z.div_div by (try apply Z.pow_pos_nonneg; lia).
    f_equal.
    replace (Z.pos k~0) with (Z.pos k + Z.pos k) by lia.
    rewrite Z.pow_add_r by lia. reflexivity.
  - cbn [iter_pos]. rewrite shr_1_div2 by exact Hr. reflexivity.
Qed.

Lemma shr_1_round (r : shr_record) :
  0 <= shr_m r -> shr_r (shr_1 r) = Z.odd (shr_m r).
Proof.
  destruct r as [m r s]. cbn [shr_m]. intros Hm.
  destruct m as [|[p|p|]|]; cbn [shr_1 shr_r]; try reflexivity. lia.
Qed.

(** The round bit after [k] shifts is bit [k - 1] of the mantissa. *)
Lemma iter_shr_1_round (k : positive) (r : shr_record) :
  0 <= shr_m r ->
  shr_r (iter_pos shr_1 k r) = Z.odd (shr_m r / 2 ^ (Z.pos k - 1)).
Proof.
  revert r. induction k as [k IH|k IH|]; intros r Hr.
  - cbn [iter_pos].
    assert (P1 : 0 < 2 ^ Z.pos k) by (apply Z.pow_pos_nonneg; lia).
    assert (P2 : 0 < 2 ^ (Z.pos k - 1)) by (apply Z.pow_pos_nonneg; lia).
    assert (H1 : 0 <= shr_m (shr_1 r))
      by (rewrite shr_1_div2 by exact Hr; apply Z.div_pos; lia).
    assert (H2 : 0 <= shr_m (iter_pos shr_1 k (shr_1 r)))
      by (rewrite iter_shr_1_div by exact H1; apply Z.div_pos; lia).
    rewrite IH by exact H2. rewrite iter_shr_1_div by exact H1.
    rewrite shr_1_div2 by exact Hr.
    rewrite !Z.div_div by lia.
    f_equal. f_equal.
    replace (Z.pos k~1 - 1) with (1 + (Z.pos k + (Z.pos k - 1))) by lia.
    rewrite !Z.pow_add_r by lia. change (2 ^ 1) with 2. lia.
  - cbn [iter_pos].
    assert (P1 : 0 < 2 ^ Z.pos k) by (apply Z.pow_pos_nonneg; lia).
    assert (P2 : 0 < 2 ^ (Z.pos k - 1)) by (apply Z.pow_pos_nonneg; lia).
    assert (H1 : 0 <= shr_m (iter_pos shr_1 k r))
      by (rewrite iter_shr_1_div by exact Hr; apply Z.div_pos; lia).
    rewrite IH by exact H1. rewrite iter_shr_1_div by exact Hr.
    rewrite !Z.div_div by lia.
    f_equal. f_equal.
    replace (Z.pos k~0 - 1) with (Z.pos k + (Z.pos k - 1)) by lia.
    rewrite Z.pow_add_r by lia. reflexivity.
  - cbn [iter_pos]. rewrite shr_1_round by exact Hr.
    change (2 ^ (1 - 1)) with 1. rewrite Z.div_1_r. reflexivity.
Qed.

(** With the round bit clear, rounding to nearest keeps the mantissa. *)
Lemma round_nearest_even_down (r : shr_record) :
  shr_r r = false ->
  round_nearest_even (shr_m r) (loc_of_shr_record r) = shr_m r.
Proof. destruct r as [m [|] [|]]; cbn; intros H; congruence. Qed.

Lemma digits2_pos_le (p : positive) (d : Z) :
  Z.pos p < 2 ^ d -> 0 <= d -> Z.pos (digits2_pos p) <= d.
Proof.
  intros Hp Hd. pose proof (digits2_pos_bounds p) as [Hl _].
  destruct (Z.le_gt_cases (Z.pos (digits2_pos p)) d) as [H|H]; [exact H|].
  exfalso.
  pose proof (Z.pow_le_mono_r 2 d (Z.pos (digits2_pos p) - 1) ltac:(lia) ltac:(lia)).
  lia.
Qed.

(** [float(n)] for a positive [n] of at most 24 bits: exact. *)
Lemma of_int_small (p : positive) :
  Z.pos p < 2 ^ 24 ->
  exists m e,
    Float32.of_int (Z.pos p) = S754_finite false m e /\
    digits2_pos m = 24%positive /\ -23 <= e <= 0 /\
    Z.pos m = Z.pos p * 2 ^ (- e).
Proof.
  intros Hp.
  pose proof (digits2_pos_bounds p) as Hb.
  pose proof (digits2_pos_le p 24 Hp ltac:(lia)) as Hd.
  set (d := Z.pos (digits2_pos p)) in *.
  assert (Hd0 : 0 < d) by (subst d; lia).
  unfold Float32.of_int, binary_normalize, binary_round.
  unfold fexp, emin, Float32.prec, Float32.emax. fold d.
  replace (Z.max (d + 0 - 24) (3 - 128 - 24)) with (d - 24) by lia.
  unfold shl_align. rewrite Z.sub_0_r.
  destruct (d - 24) as [|k|k] eqn:Hk; [|lia|].
  - exists p, 0.
    assert (Hdp : digits2_pos p = 24%positive)
      by (apply Pos2Z.inj; fold d; lia).
    split; [apply round_aux_canonical; [exact Hdp|lia]|].
    split; [exact Hdp|]. split; [lia|]. simpl. lia.
  - exists (Pos.iter xO p k), (Z.neg k).
    assert (Hm : Z.pos (Pos.iter xO p k) = Z.pos p * 2 ^ Z.pos k)
      by apply iter_xO_mul.
    assert (Hdm : digits2_pos (Pos.iter xO p k) = 24%positive).
    { apply Pos2Z.inj. apply digits2_pos_unique; [|lia].
      rewrite Hm.
      assert (E1 : 2 ^ (24 - 1) = 2 ^ (d - 1) * 2 ^ Z.pos k)
        by (rewrite <- Z.pow_add_r by lia; f_equal; lia).
      assert (E2 : 2 ^ 24 = 2 ^ d * 2 ^ Z.pos k)
        by (rewrite <- Z.pow_add_r by lia; f_equal; lia).
      rewrite E1, E2.
      assert (0 < 2 ^ Z.pos k) by (apply Z.pow_pos_nonneg; lia).
      nia. }
    split; [apply round_aux_canonical; [exact Hdm|lia]|].
    split; [exact Hdm|]. split; [lia|]. exact Hm.
Qed.

Lemma round_nearest_even_range (m : Z) (l : location) :
  m <= round_nearest_even m l <= m + 1.
Proof.
  destruct l as [|[| |]]; cbn [round_nearest_even]; try lia.
  destruct (Z.even m); lia.
Qed.

(** The second half of [binary_round_aux] on a mantissa between 2^23 and
    2^24: one more shift when rounding carried into bit 24. *)
Lemma round_tail_carry (s : bool) (m2 e : Z) :
  2 ^ 23 <= m2 <= 2 ^ 24 -> -149 <= e <= 103 ->
  exists m e',
    (let '(mrs, e'') :=
       shr_fexp Float32.prec Float32.emax m2 e loc_Exact in
     match shr_m mrs with
     | 0 => S754_zero s
     | Z.pos m' =>
         if e'' <=? Float32.emax - Float32.prec
         then S754_finite s m' e'' else S754_infinity s
     | Z.neg _ => S754_nan
     end) = S754_finite s m e' /\
    digits2_pos m = 24%positive /\ e <= e' <= e + 1 /\
    (0 <= e -> Z.pos m * 2 ^ e' = m2 * 2 ^ e).
Proof.
  intros Hm He.
  destruct (Z.eq_dec m2 (2 ^ 24)) as [->|Hne].
  - exists 8388608%positive, (e + 1).
    split; [|split; [reflexivity|split; [lia|]]].
    2:{ intros He0. rewrite Z.pow_add_r by lia.
        change (2 ^ 1) with 2. change (2 ^ 24) with 16777216. lia. }
    unfold shr_fexp, fexp, emin, Float32.prec, Float32.emax.
    change (Zdigits2 (2 ^ 24)) with 25.
    replace (Z.max (25 + e - 24) (3 - 128 - 24) - e) with 1 by lia.
    cbn [shr shr_record_of_loc iter_pos shr_1 shr_m].
    change (2 ^ 24) with (Z.pos (8388608~0)%positive).
    cbn [shr_1 shr_m].
    replace (e + 1 <=? 128 - 24) with true; [reflexivity|].
    symmetry. apply Z.leb_le. lia.
  - destruct m2 as [|p|p]; try lia.
    exists p, e.
    assert (Hd : digits2_pos p = 24%positive).
    { apply Pos2Z.inj. apply digits2_pos_unique; lia. }
    split; [apply round_tail; [exact Hd|lia]|].
    split; [exact Hd|]. split; [lia|]. intros _. reflexivity.
Qed.

(** [float(n)] for [n] between 2^24 and 2^31: [n] is shifted right by
    [k] bits and rounded to 24 bits, upward only when the last bit shifted
    out is set. *)
Lemma of_int_large_core (p : positive) :
  2 ^ 24 <= Z.pos p < 2 ^ 31 ->
  exists (k : Z) (m : positive) (e : Z),
    1 <= k <= 7 /\
    2 ^ 23 <= Z.pos p / 2 ^ k < 2 ^ 24 /\
    Float32.of_int (Z.pos p) = S754_finite false m e /\
    digits2_pos m = 24%positive /\ k <= e <= k + 1 /\
    Z.pos m * 2 ^ e <= (Z.pos p / 2 ^ k + 1) * 2 ^ k /\
    (Z.odd (Z.pos p / 2 ^ (k - 1)) = false ->
     Z.pos m * 2 ^ e = Z.pos p / 2 ^ k * 2 ^ k).
Proof.
  intros Hp.
  pose proof (digits2_pos_bounds p) as Hb.
  pose proof (digits2_pos_le p 31 ltac:(lia) ltac:(lia)) as Hd.
  set (d := Z.pos (digits2_pos p)) in *.
  assert (Hd25 : 25 <= d).
  { destruct (Z.le_gt_cases 25 d) as [H|H]; [exact H|]. exfalso.
    pose proof (Z.pow_le_mono_r 2 d 24 ltac:(lia) ltac:(lia)). lia. }
  unfold Float32.of_int, binary_normalize, binary_round.
  unfold fexp at 1. unfold emin, Float32.prec, Float32.emax. fold d.
  replace (Z.max (d + 0 - 24) (3 - 128 - 24)) with (d - 24) by lia.
  unfold shl_align. rewrite Z.sub_0_r.
  destruct (d - 24) as [|k|k] eqn:Hk; try lia.
  unfold binary_round_aux.
  assert (Hs : shr_fexp 24 128 (Z.pos p) 0 loc_Exact
               = (iter_pos shr_1 k (Build_shr_record (Z.pos p) false false),
                  Z.pos k)).
  { unfold shr_fexp, fexp, emin. cbn [Zdigits2]. fold d.
    replace (Z.max (d + 0 - 24) (3 - 128 - 24) - 0) with (Z.pos k) by lia.
    reflexivity. }
  rewrite Hs.
  set (r1 := iter_pos shr_1 k (Build_shr_record (Z.pos p) false false)).
  assert (Hm1 : shr_m r1 = Z.pos p / 2 ^ Z.pos k)
    by (subst r1; rewrite iter_shr_1_div; [reflexivity|cbn; lia]).
  assert (Hrb : shr_r r1 = Z.odd (Z.pos p / 2 ^ (Z.pos k - 1)))
    by (subst r1; rewrite iter_shr_1_round; [reflexivity|cbn; lia]).
  assert (Hr1 : 2 ^ 23 <= shr_m r1 < 2 ^ 24).
  { rewrite Hm1.
    assert (Hk0 : 0 < 2 ^ Z.pos k) by (apply Z.pow_pos_nonneg; lia).
    assert (E1 : 2 ^ (d - 1) = 2 ^ Z.pos k * 2 ^ 23)
      by (rewrite <- Z.pow_add_r by lia; f_equal; lia).
    assert (E2 : 2 ^ d = 2 ^ Z.pos k * 2 ^ 24)
      by (rewrite <- Z.pow_add_r by lia; f_equal; lia).
    split.
    - apply Z.div_le_lower_bound; [exact Hk0|]. lia.
    - apply Z.div_lt_upper_bound; [exact Hk0|]. lia. }
  pose proof (round_nearest_even_range (shr_m r1) (loc_of_shr_record r1)) as Hr2.
  destruct (round_tail_carry false
              (round_nearest_even (shr_m r1) (loc_of_shr_record r1))
              (Z.pos k) ltac:(lia) ltac:(lia))
    as (m & e' & Heq & Hdm & He' & Hv).
  specialize (Hv ltac:(lia)).
  assert (Hk0 : 0 < 2 ^ Z.pos k) by (apply Z.pow_pos_nonneg; lia).
  exists (Z.pos k), m, e'.
  split; [lia|]. split; [rewrite <- Hm1; exact Hr1|].
  split; [exact Heq|]. split; [exact Hdm|]. split; [lia|].
  rewrite <- Hm1. split.
  - rewrite Hv. apply Z.mul_le_mono_nonneg_r; lia.
  - intros Hodd. rewrite Hv.
    rewrite round_nearest_even_down by (rewrite Hrb; exact Hodd).
    reflexivity.
Qed.

Lemma of_int_large (p : positive) :
  2 ^ 24 <= Z.pos p < 2 ^ 31 ->
  exists m e,
    Float32.of_int (Z.pos p) = S754_finite false m e /\
    digits2_pos m = 24%positive /\ 1 <= e <= 8.
Proof.
  intros Hp.
  destruct (of_int_large_core p Hp) as (k & m & e & Hk & _ & Heq & Hd & He & _).
  exists m, e. split; [exact Heq|]. split; [exact Hd|lia].
Qed.

(** Below 2^31 - 64 the rounding stays below 2^31: the largest [float]
    under 2^31 is 2^31 - 128, and 2^31 - 64 is the first integer that
    rounds up to 2^31. *)
Lemma of_int_large_bound (p : positive) :
  2 ^ 24 <= Z.pos p <= 2 ^ 31 - 65 ->
  exists m e,
    Float32.of_int (Z.pos p) = S754_finite false m e /\
    1 <= e /\ Z.pos m * 2 ^ e <= 2 ^ 31 - 128.
Proof.
  intros Hp.
  destruct (of_int_large_core p ltac:(lia))
    as (k & m & e & Hk & Hq & Heq & _ & He & Hup & Hdown).
  exists m, e. split; [exact Heq|]. split; [lia|].
  destruct (Z.eq_dec k 7) as [->|Hk7].
  - change (2 ^ 7) with 128 in *. change (2 ^ (7 - 1)) with 64 in *.
    change (2 ^ 24) with 16777216 in *. change (2 ^ 31) with 2147483648 in *.
    destruct (Z.eq_dec (Z.pos p / 128) 16777215) as [Hq'|Hq'].
    + assert (Hodd : Z.odd (Z.pos p / 64) = false).
      { assert (Z.pos p / 64 = 33554430) as ->
          by (Z.div_mod_to_equations; lia).
        reflexivity. }
      rewrite (Hdown Hodd). lia.
    + lia.
  - assert (Hk6 : 2 ^ k <= 2 ^ 6) by (apply Z.pow_le_mono_r; lia).
    assert (H0 : 0 < 2 ^ k) by (apply Z.pow_pos_nonneg; lia).
    change (2 ^ 6) with 64 in Hk6.
    change (2 ^ 24) with 16777216 in *. change (2 ^ 31) with 2147483648 in *.
    nia.
Qed.

(** [float(n)] for a positive [int]: finite, with a full mantissa. *)
Lemma of_int_canonical (n : Z) :
  0 < n < 2 ^ 31 ->
  exists m e,
    Float32.of_int n = S754_finite false m e /\
    digits2_pos m = 24%positive /\ -23 <= e <= 8 /\
    (e < 0 -> Z.pos m = n * 2 ^ (- e)).
Proof.
  intros Hn. destruct n as [|p|p]; try lia.
  destruct (Z.lt_ge_cases (Z.pos p) (2 ^ 24)) as [Hs|Hl].
  - destruct (of_int_small p Hs) as (m & e & H1 & H2 & H3 & H4).
    exists m, e. repeat split; try assumption; try lia.
  - destruct (of_int_large p ltac:(lia)) as (m & e & H1 & H2 & H3).
    exists m, e. repeat split; try assumption; try lia.
Qed.

(** [ceilf] of an integer-valued [float(n)] is the same [float]. *)
Lemma ceilf_of_int (n : Z) :
  0 <= n < 2 ^ 31 -> Float32.ceilf (Float32.of_int n) = Float32.of_int n.
Proof.
  intros Hn. destruct (Z.eq_dec n 0) as [->|Hn0]; [reflexivity|].
  destruct (of_int_canonical n ltac:(lia)) as (m & e & H1 & H2 & H3 & H4).
  rewrite H1. cbn [Float32.ceilf].
  destruct (0 <=? e) eqn:He; [reflexivity|].
  apply Z.leb_gt in He. specialize (H4 He).
  rewrite <- H1. unfold Float32.ceil_Z.
  replace (0 <=? e) with false by (symmetry; apply Z.leb_gt; exact He).
  cbn [cond_Zopp negb]. rewrite H4.
  assert (Hp : 0 < 2 ^ (- e)) by (apply Z.pow_pos_nonneg; lia).
  replace (- (n * 2 ^ (- e))) with ((- n) * 2 ^ (- e)) by lia.
  rewrite Z.div_mul by lia.
  replace (- - n) with n by lia. reflexivity.
Qed.

(** The round trip [int -> float -> int] of a distance below 2^31 - 64
    is defined, and exact below 2^24. *)
Lemma of_int_int_range (n : Z) :
  0 <= n <= 2 ^ 31 - 65 ->
  Float32.to_int (Float32.of_int n)
    = Some (Float32.trunc_Z (Float32.of_int n)) /\
  0 <= Float32.trunc_Z (Float32.of_int n) <= 2 ^ 31 - 128 /\
  (n < 2 ^ 24 -> Float32.trunc_Z (Float32.of_int n) = n).
Proof.
  intros Hn.
  assert (Hdef : forall x,
             Float32.is_finite x = true ->
             0 <= Float32.trunc_Z x <= 2 ^ 31 - 128 ->
             Float32.to_int x = Some (Float32.trunc_Z x)).
  { intros x Hf Hx. destruct x as [s|s| |s m e]; try discriminate.
    - reflexivity.
    - unfold Float32.to_int.
      replace ((INT32_MIN <=? Float32.trunc_Z (S754_finite s m e))
               && (Float32.trunc_Z (S754_finite s m e) <=? INT32_MAX))
        with true; [reflexivity|].
      symmetry. apply andb_true_iff. unfold INT32_MIN, INT32_MAX.
      split; apply Z.leb_le; lia. }
  destruct n as [|p|p]; [|  |lia].
  - split; [reflexivity|]. split; [cbn; lia|]. reflexivity.
  - destruct (Z.lt_ge_cases (Z.pos p) (2 ^ 24)) as [Hs|Hl].
    + destruct (of_int_small p Hs) as (m & e & Heq & Hd & He & Hm).
      assert (Ht : Float32.trunc_Z (Float32.of_int (Z.pos p)) = Z.pos p).
      { rewrite Heq. cbn [Float32.trunc_Z cond_Zopp].
        destruct (0 <=? e) eqn:Hle.
        - apply Z.leb_le in Hle. assert (e = 0) as -> by lia.
          simpl in Hm. lia.
        - rewrite Hm. apply Z.div_mul.
          assert (0 < 2 ^ (- e)) by (apply Z.pow_pos_nonneg; lia). lia. }
      assert (Hr : 0 <= Float32.trunc_Z (Float32.of_int (Z.pos p))
                   <= 2 ^ 31 - 128) by (rewrite Ht; lia).
      split; [apply Hdef; [rewrite Heq; reflexivity|exact Hr]|].
      split; [exact Hr|]. intros _. exact Ht.
    + destruct (of_int_large_bound p ltac:(lia)) as (m & e & Heq & He & Hv).
      assert (Ht : Float32.trunc_Z (Float32.of_int (Z.pos p)) = Z.pos m * 2 ^ e).
      { rewrite Heq. cbn [Float32.trunc_Z cond_Zopp].
        replace (0 <=? e) with true by (symmetry; apply Z.leb_le; lia).
        reflexivity. }
      assert (Hr : 0 <= Float32.trunc_Z (Float32.of_int (Z.pos p))
                   <= 2 ^ 31 - 128).
      { rewrite Ht. split; [|exact Hv].
        apply Z.mul_nonneg_nonneg; [lia|]. apply Z.pow_nonneg. lia. }
      split; [apply Hdef; [rewrite Heq; reflexivity|exact Hr]|].
      split; [exact Hr|]. intros Hlt. lia.
Qed.

(** The scaled inset of [computeCrop] when the scale is an extent divided
    by itself: the round trip [int -> float -> int] of [n]. *)
Lemma inset_unit_scale (n W : Z) :
  0 <= n <= 2 ^ 31 - 65 -> 0 < W < 2 ^ 31 ->
  let scale := Float32.div (Float32.of_int W) (Float32.of_int W) in
  scale = Float32.one /\
  inset n scale = Some (Float32.trunc_Z (Float32.of_int n)) /\
  0 <= Float32.trunc_Z (Float32.of_int n) <= 2 ^ 31 - 128 /\
  (n < 2 ^ 24 -> inset n scale = Some n).
Proof.
  intros Hn HW scale.
  assert (Hsc : scale = Float32.one).
  { subst scale.
    destruct (of_int_canonical W HW) as (m & e & -> & _).
    apply div_self. }
  assert (Hmul : Float32.mul (Float32.of_int n) Float32.one = Float32.of_int n).
  { destruct (Z.eq_dec n 0) as [->|Hn0]; [reflexivity|].
    destruct (of_int_canonical n ltac:(lia)) as (m & e & -> & Hd & He & _).
    apply mul_one; [exact Hd|lia]. }
  destruct (of_int_int_range n Hn) as (Hto & Hr & Hex).
  assert (Hin : inset n scale = Some (Float32.trunc_Z (Float32.of_int n))).
  { unfold inset. rewrite Hsc, Hmul, ceilf_of_int by lia. exact Hto. }
  split; [exact Hsc|]. split; [exact Hin|]. split; [exact Hr|].
  intros Hs. rewrite Hin, (Hex Hs). reflexivity.
Qed.

(** ** Signs of [float] results *)












Lemma int_add_in_range (a b : Z) :
  INT32_MIN <= a + b <= INT32_MAX -> int_add a b = Some (a + b).
Proof.
  intros H. unfold int_add.
  replace ((INT32_MIN <=? a + b) && (a + b <=? INT32_MAX)) with true;
    [reflexivity|].
  symmetry. apply andb_true_iff. split; apply Z.leb_le; lia.
Qed.

Lemma int_sub_in_range (a b : Z) :
  INT32_MIN <= a - b <= INT32_MAX -> int_sub a b = Some (a - b).
Proof.
  intros H. unfold int_sub.
  replace ((INT32_MIN <=? a - b) && (a - b <=? INT32_MAX)) with true;
    [reflexivity|].
  symmetry. apply andb_true_iff. split; apply Z.leb_le; lia.
Qed.

(** ** The overlay crop *)

Section CropProperties.
Context {C : Constants}.
Context {Transform : Type} {TO : TransformOps Transform}.
Context {Region : Type} {RO : RegionOps Region}.

Lemma Rect_transform_none (r : Rect) (width' height' : Z) :
  Rect_transform r 0 width' height' = r.
Proof. unfold Rect_transform. rewrite !Z.land_0_l. reflexivity. Qed.

(** The clipped window crop lies in the window, and the window is not
    empty when the clipped crop is not. *)
Lemma clippedActiveCrop_bounds (s : State Transform Region) (viewport : Rect) :
  let a := clippedActiveCrop s viewport in
  isEmpty a = false ->
  0 <= left a /\ 0 <= top a /\
  left a < right a /\ top a < bottom a /\
  right a <= to_i32 (w (active s)) /\ bottom a <= to_i32 (h (active s)).
Proof.
  intros a He. subst a. unfold isEmpty, width, height in He.
  apply orb_false_iff in He. destruct He as [Hw Hh].
  apply Z.leb_gt in Hw. apply Z.leb_gt in Hh.
  unfold clippedActiveCrop, intersect, Rect_wh in *. simpl in *. lia.
Qed.


(** [computeCrop] of the base class, spelled out: the content crop is the
    window, the content transform is 0, so both scales are a window
    extent divided by itself and the window crop is not rotated. *)
Lemma computeCrop_unfold (l : LayerBase Transform Region)
  (hw : DisplayDevice Transform) :
  let s := mDrawingState l in
  let a := clippedActiveCrop s (getViewport hw) in
  let W := to_i32 (w (active s)) in
  let H := to_i32 (h (active s)) in
  let xScale := Float32.div (Float32.of_int W) (Float32.of_int W) in
  let yScale := Float32.div (Float32.of_int H) (Float32.of_int H) in
  computeCrop l hw =
    if isEmpty a then Some (getContentCrop l)
    else
      insetL <- inset (left a) xScale ;;
      insetT <- inset (top a) yScale ;;
      fromRight <- int_sub W (right a) ;;
      insetR <- inset fromRight xScale ;;
      fromBottom <- int_sub H (bottom a) ;;
      insetB <- inset fromBottom yScale ;;
      left' <- int_add 0 insetL ;;
      top' <- int_add 0 insetT ;;
      right' <- int_sub W insetR ;;
      bottom' <- int_sub H insetB ;;
      Some (mkRect left' top' right' bottom').
Proof.
  intros s a W H xScale yScale.
  unfold computeCrop, computeCrop_body, getContentTransform.
  cbv zeta. rewrite !Z.land_0_l. cbn [Z.eqb negb].
  fold s. fold a.
  destruct (isEmpty a); [reflexivity|]. cbn [negb].
  rewrite Rect_transform_none.
  unfold getContentCrop, Rect_wh, width, height. cbn [left top right bottom].
  fold s. fold W. fold H. rewrite !Z.sub_0_r.
  reflexivity.
Qed.






(** In a window of at most 2^31 - 64 pixels a side every conversion of
    the base class's [computeCrop] is defined: each inset is the round
    trip [int -> float -> int] of a window distance. *)
Lemma computeCrop_round_trip (l : LayerBase Transform Region)
  (hw : DisplayDevice Transform) :
  let s := mDrawingState l in
  let a := clippedActiveCrop s (getViewport hw) in
  let W := to_i32 (w (active s)) in
  let H := to_i32 (h (active s)) in
  let rnd := fun n => Float32.trunc_Z (Float32.of_int n) in
  isEmpty a = false ->
  W <= 2 ^ 31 - 64 -> H <= 2 ^ 31 - 64 ->
  computeCrop l hw =
    Some (mkRect (rnd (left a)) (rnd (top a))
                 (W - rnd (W - right a)) (H - rnd (H - bottom a))).
Proof.
  intros s a W H rnd He HWb HHb.
  pose proof (clippedActiveCrop_bounds s (getViewport hw) He) as Hb.
  cbv zeta in Hb. fold a W H in Hb.
  destruct Hb as (Hl & Ht & Hw & Hh & Hr & Hb).
  pose proof (computeCrop_unfold l hw) as Hu. cbv zeta in Hu.
  fold s a W H in Hu. rewrite He in Hu.
  destruct (inset_unit_scale (left a) W ltac:(lia) ltac:(lia))
    as (_ & HL & HL' & _).
  destruct (inset_unit_scale (top a) H ltac:(lia) ltac:(lia))
    as (_ & HT & HT' & _).
  destruct (inset_unit_scale (W - right a) W ltac:(lia) ltac:(lia))
    as (_ & HR & HR' & _).
  destruct (inset_unit_scale (H - bottom a) H ltac:(lia) ltac:(lia))
    as (_ & HB & HB' & _).
  cbv zeta in HL, HT, HR, HB.
  rewrite Hu, HL, HT.
  rewrite (int_sub_in_range W (right a)) by (unfold INT32_MIN, INT32_MAX; lia).
  rewrite HR.
  rewrite (int_sub_in_range H (bottom a)) by (unfold INT32_MIN, INT32_MAX; lia).
  rewrite HB.
  rewrite !int_add_in_range by (unfold INT32_MIN, INT32_MAX; lia).
  rewrite !int_sub_in_range by (unfold INT32_MIN, INT32_MAX; lia).
  reflexivity.
Qed.

(** In a window of at most 2^24 pixels a side the round trips are exact:
    [computeCrop] is the clipped window crop. *)
Lemma computeCrop_clipped (l : LayerBase Transform Region)
  (hw : DisplayDevice Transform) :
  let s := mDrawingState l in
  let a := clippedActiveCrop s (getViewport hw) in
  isEmpty a = false ->
  to_i32 (w (active s)) <= 2 ^ 24 -> to_i32 (h (active s)) <= 2 ^ 24 ->
  computeCrop l hw = Some a.
Proof.
  intros s a He HW24 HH24.
  pose proof (clippedActiveCrop_bounds s (getViewport hw) He) as Hb.
  cbv zeta in Hb. fold a in Hb.
  pose proof (computeCrop_round_trip l hw He) as Hc.
  cbv zeta in Hc. fold s a in Hc.
  set (W := to_i32 (w (active s))) in *.
  set (H := to_i32 (h (active s))) in *.
  specialize (Hc ltac:(lia) ltac:(lia)).
  destruct Hb as (Hl & Ht & Hw & Hh & Hr & Hb).
  destruct (of_int_int_range (left a) ltac:(lia)) as (_ & _ & HL).
  destruct (of_int_int_range (top a) ltac:(lia)) as (_ & _ & HT).
  destruct (of_int_int_range (W - right a) ltac:(lia)) as (_ & _ & HR).
  destruct (of_int_int_range (H - bottom a) ltac:(lia)) as (_ & _ & HB).
  rewrite Hc, HL, HT, HR, HB by lia.
  destruct a as [al at' ar ab]. cbn [left top right bottom].
  do 2 f_equal; lia.
Qed.

(** X24.  When the clipped window crop is not empty and the window is at
    most 2^31 - 64 pixels a side, [computeCrop] is defined and every inset
    is the round trip [int -> float -> int] of a window distance; in a
    window of at most 2^24 pixels a side each round trip is exact and
    [computeCrop] is the clipped window crop itself. *)
Lemma computeCrop_exact (l : LayerBase Transform Region)
  (hw : DisplayDevice Transform) :
  let s := mDrawingState l in
  let a := clippedActiveCrop s (getViewport hw) in
  let W := to_i32 (w (active s)) in
  let H := to_i32 (h (active s)) in
  let rnd := fun n => Float32.trunc_Z (Float32.of_int n) in
  isEmpty a = false ->
  (W <= 2 ^ 31 - 64 -> H <= 2 ^ 31 - 64 ->
   computeCrop l hw =
     Some (mkRect (rnd (left a)) (rnd (top a))
                  (W - rnd (W - right a)) (H - rnd (H - bottom a)))) /\
  (W <= 2 ^ 24 -> H <= 2 ^ 24 -> computeCrop l hw = Some a).
Proof.
  intros s a W H rnd He. split.
  - intros HWb HHb.
    apply (computeCrop_round_trip l hw He HWb HHb).
  - intros HW24 HH24.
    apply (computeCrop_clipped l hw He HW24 HH24).
Qed.



(** X17.  When the layer transform maps the active crop to itself, its
    inverse maps the crop clipped to the viewport to itself, and the
    window is at most 2^24 pixels a side, [computeCrop] is the active crop
    clipped to the viewport and to the window, if that is not empty; so
    with the active crop equal to the window and the window inside the
    viewport, it is the content crop, with zero insets. *)
Theorem computeCrop_identity_transform :
  forall (l : LayerBase Transform Region) (hw : DisplayDevice Transform),
    let s := mDrawingState l in
    let win := Rect_wh (w (active s)) (h (active s)) in
    let clipped := intersect (crop (active s)) (getViewport hw) in
    tr_transform (transform s) (crop (active s)) = crop (active s) ->
    tr_transform (tr_inverse (transform s)) clipped = clipped ->
    right win <= 2 ^ 24 -> bottom win <= 2 ^ 24 ->
    (isEmpty (intersect clipped win) = false ->
     computeCrop l hw = Some (intersect clipped win)) /\
    (crop (active s) = win -> isEmpty win = false ->
     Rect_within win (getViewport hw) ->
     computeCrop l hw = Some (getContentCrop l)).
Proof.
  intros l hw s win clipped Ht Hi HW HH.
  assert (Ha : clippedActiveCrop s (getViewport hw) = intersect clipped win).
  { unfold clippedActiveCrop. rewrite Ht. fold clipped. rewrite Hi.
    reflexivity. }
  assert (H1 : isEmpty (intersect clipped win) = false ->
               computeCrop l hw = Some (intersect clipped win)).
  { intros He. rewrite <- Ha in He |- *.
    apply computeCrop_clipped; assumption. }
  split; [exact H1|].
  intros Hc He Hv.
  assert (Hw : intersect clipped win = win).
  { subst clipped. rewrite Hc.
    unfold Rect_within in Hv. unfold intersect.
    destruct win as [a b c d]. cbn [left top right bottom] in *.
    f_equal; lia. }
  rewrite Hw in H1. rewrite (H1 He). reflexivity.
Qed.

End CropProperties.

(** ** Layer identity *)

Section IdentityProperties.
Context {Transform : Type} {TO : TransformOps Transform}.
Context {Region : Type} {RO : RegionOps Region}.

Local Abbreviation sequences :=
  (constructed_sequences (Transform := Transform) (Region := Region)).

Lemma constructed_sequences_nth (n : nat) :
  forall (s : Z) (k : nat),
    0 <= s -> s + Z.of_nat n < 2 ^ 31 -> (k < n)%nat ->
    nth k (sequences n s) 0 = s + Z.of_nat k.
Proof.
  induction n as [|n IH]; intros s k Hs Hn Hk; [lia|].
  cbn [constructed_sequences LayerBase_construct].
  destruct k as [|k].
  - cbn [nth]. rewrite to_u32_small by lia. lia.
  - cbn [nth]. rewrite to_i32_small by lia.
    rewrite IH by lia. lia.
Qed.

Lemma constructed_sequences_length (n : nat) (s : Z) :
  length (sequences n s) = n.
Proof.
  revert s. induction n as [|n IH]; intros s; [reflexivity|].
  cbn [constructed_sequences LayerBase_construct length]. rewrite IH.
  reflexivity.
Qed.

(** X18.  Layers constructed one after another get consecutive [sequence]
    identities counted from the value of [sSequence], so, from its initial
    value 1 and for fewer than 2^31 - 1 layers, the k-th layer has
    identity k + 1 and no two layers share one. *)
Theorem constructed_sequences_distinct :
  forall (n : nat),
    Z.of_nat n < 2 ^ 31 - 1 ->
    length (sequences n sSequence_initial) = n /\
    (forall k, (k < n)%nat ->
               nth k (sequences n sSequence_initial) 0 = Z.of_nat k + 1) /\
    NoDup (sequences n sSequence_initial).
Proof.
  intros n Hn. unfold sSequence_initial.
  split; [apply constructed_sequences_length|].
  assert (Hk : forall k, (k < n)%nat -> nth k (sequences n 1) 0 = Z.of_nat k + 1).
  { intros k Hk. rewrite constructed_sequences_nth by lia. lia. }
  split; [exact Hk|].
  apply (NoDup_nth (sequences n 1) 0).
  rewrite constructed_sequences_length. intros i j Hi Hj Heq.
  rewrite !Hk in Heq by assumption. lia.
Qed.

End IdentityProperties.

(** ** The OpenGL path *)

Lemma SFsub_one_zero : Float32_sub Float32.one Float32.zero = Float32.one.
Proof. reflexivity. Qed.

Lemma SFsub_one_one : Float32_sub Float32.one Float32.one = Float32.zero.
Proof. vm_compute. reflexivity. Qed.

Lemma div_zero_of_int (n : Z) :
  0 < n < 2 ^ 31 ->
  Float32.div (Float32.of_int 0) (Float32.of_int n) = Float32.zero.
Proof.
  intros Hn. destruct (of_int_canonical n Hn) as (m & e & -> & _).
  reflexivity.
Qed.

Lemma div_of_int_self (n : Z) :
  0 < n < 2 ^ 31 ->
  Float32.div (Float32.of_int n) (Float32.of_int n) = Float32.one.
Proof.
  intros Hn. destruct (of_int_canonical n Hn) as (m & e & -> & _).
  apply div_self.
Qed.

Section DrawProperties.
Context {C : Constants}.
Context {Transform : Type} {TO : TransformOps Transform}.
Context {TP : TransformPointOps Transform}.
Context {Region : Type} {RO : RegionOps Region}.

Local Abbreviation LayerBase := (LayerBase Transform Region).

(** X19.  With [mNeedsFiltering] recomputed only by a commit that sees a
    new sequence, [needsFiltering(hw)] after [doTransaction] is the
    filtering need of the pending transform or the display's when the
    sequences differed, and what it was before when they agreed (a resize
    alone does not change it). *)
Theorem needsFiltering_after_commit :
  forall (l : LayerBase) (flags' : Z) (hwNeedsFiltering : bool),
    (sequence (mCurrentState l) <> sequence (mDrawingState l) ->
     needsFiltering (snd (doTransaction l flags')) hwNeedsFiltering
       = transformNeedsFiltering (transform (mCurrentState l))
         || hwNeedsFiltering) /\
    (sequence (mCurrentState l) = sequence (mDrawingState l) ->
     needsFiltering (snd (doTransaction l flags')) hwNeedsFiltering
       = needsFiltering l hwNeedsFiltering).
Proof.
  intros l flags' hwf. unfold needsFiltering. split; intros Hs.
  - destruct (doTransaction_seq_changed l flags' Hs) as (_ & _ & ->).
    reflexivity.
  - apply Z.eqb_eq in Hs. unfold doTransaction.
    destruct (Z.land flags' eDontUpdateGeometryState =? 0); simpl;
      rewrite Hs; destruct (Geometry_eqb _ _); reflexivity.
Qed.

Lemma meshVertices_length (l : LayerBase) (hw : Display Transform) :
  length (meshVertices l hw) = 4%nat.
Proof.
  unfold meshVertices, computeGeometry.
  destruct (negb (isEmpty (crop (active (mDrawingState l))))); reflexivity.
Qed.

(** X20.  [computeGeometry] fills the mesh with the four corners of
    [computeBounds()] in the order (left, top), (left, bottom),
    (right, bottom), (right, top), each mapped by the display transform
    composed with the layer transform and then flipped in Y against the
    display height; with a null mesh it does nothing. *)
Theorem computeGeometry_corners :
  forall (l : LayerBase) (hw : Display Transform) (mesh : LayerMesh),
    let win := computeBounds l in
    let tr := tr_compose (getTransform (device hw))
                         (transform (mDrawingState l)) in
    let flip := fun v : float * float =>
      (fst v, Float32_sub (Float32.of_int (to_u32 (getHeight hw))) (snd v)) in
    computeGeometry l hw (Some mesh) =
      Some (map flip
              (map (fun c => tr_transform_point tr (fst c) (snd c))
                   [ (left win, top win); (left win, bottom win);
                     (right win, bottom win); (right win, top win) ])) /\
    computeGeometry l hw None = None /\
    length (meshVertices l hw) = 4%nat.
Proof.
  intros l hw mesh win tr flip. subst win tr flip.
  unfold meshVertices, computeGeometry, computeBounds.
  destruct (negb (isEmpty (crop (active (mDrawingState l)))));
    repeat split; reflexivity.
Qed.

Lemma blendAfter_app (b : bool) (xs ys : list GLcall) :
  blendAfter b (xs ++ ys) = blendAfter (blendAfter b xs) ys.
Proof. unfold blendAfter. apply fold_left_app. Qed.

Lemma drawWithOpenGL_blend (l : LayerBase) (hw : Display Transform)
  (before : bool) :
  blendAfter before (beforeDraw (drawWithOpenGL l hw))
    = (alpha (mDrawingState l) <? 255) || negb (isOpaque l).
Proof.
  unfold drawWithOpenGL.
  destruct (alpha (mDrawingState l) <? 255);
    destruct (isOpaque l); destruct (mPremultipliedAlpha l); reflexivity.
Qed.

(** X21.  Whatever the GL state was, [drawWithOpenGL] has [GL_BLEND]
    enabled at its draw call exactly when the committed alpha is below 255
    or the layer is not opaque, with source factor [GL_ONE] for
    premultiplied alpha and [GL_SRC_ALPHA] otherwise, and it leaves
    [GL_BLEND] disabled when it returns. *)
Theorem drawWithOpenGL_blending :
  forall (l : LayerBase) (hw : Display Transform)
         (before : bool) (src : option GLfactor),
    let atDraw := beforeDraw (drawWithOpenGL l hw) in
    (blendAfter before atDraw = true <->
     alpha (mDrawingState l) < 255 \/ isOpaque l = false) /\
    (blendAfter before atDraw = true ->
     blendSrcAfter src atDraw
       = Some (if mPremultipliedAlpha l then GL_ONE else GL_SRC_ALPHA)) /\
    blendAfter before (drawWithOpenGL l hw) = false.
Proof.
  intros l hw before src atDraw. subst atDraw.
  rewrite drawWithOpenGL_blend.
  split; [|split].
  - rewrite orb_true_iff, negb_true_iff, Z.ltb_lt. tauto.
  - unfold drawWithOpenGL.
    destruct (alpha (mDrawingState l) <? 255);
      destruct (isOpaque l); destruct (mPremultipliedAlpha l);
      simpl; intros H; try discriminate; reflexivity.
  - unfold drawWithOpenGL.
    destruct (alpha (mDrawingState l) <? 255);
      destruct (isOpaque l); destruct (mPremultipliedAlpha l); reflexivity.
Qed.

(** X22.  The two composition paths agree on blending: for an alpha in
    0..255, [drawWithOpenGL] draws with [GL_BLEND] enabled exactly when
    [setGeometry] gives the hardware descriptor a blending mode, and then
    the GL source factor is [GL_ONE] exactly when that mode is
    premultiplied. *)
Theorem blending_paths_agree :
  forall (l : LayerBase) (hw : Display Transform) (y : HWCLayer)
         (before : bool) (src : option GLfactor),
    0 <= alpha (mDrawingState l) <= 255 ->
    let atDraw := beforeDraw (drawWithOpenGL l hw) in
    let d := setGeometry l (device hw) y in
    (blendAfter before atDraw = true <-> hwc_blending d <> HWC_BLENDING_NONE) /\
    (blendAfter before atDraw = true ->
     (blendSrcAfter src atDraw = Some GL_ONE
      <-> hwc_blending d = HWC_BLENDING_PREMULT)).
Proof.
  intros l hw y before src Ha atDraw d. subst atDraw d.
  rewrite drawWithOpenGL_blend, setGeometry_blending.
  assert (Hc : (alpha (mDrawingState l) <? 255)
               = negb (alpha (mDrawingState l) =? 255)).
  { destruct (Z.ltb_spec (alpha (mDrawingState l)) 255);
      destruct (Z.eqb_spec (alpha (mDrawingState l)) 255);
      try reflexivity; lia. }
  rewrite Hc, (orb_comm (negb (_ =? 255))).
  unfold drawWithOpenGL. rewrite Hc.
  destruct (negb (alpha (mDrawingState l) =? 255));
    destruct (isOpaque l); destruct (mPremultipliedAlpha l); simpl;
    (split; [split; intros H; try discriminate; try reflexivity;
             try (exfalso; apply H; reflexivity)
            |intros H; try discriminate;
             split; intros H'; try discriminate; reflexivity]).
Qed.

(** [clearWithOpenGL] draws its four-vertex fan with [GL_BLEND] disabled,
    whatever the GL state was, and leaves it disabled. *)
Lemma clearWithOpenGL_no_blend :
  forall (l : LayerBase) (hw : Display Transform) (r g b a : float)
         (before : bool),
    blendAfter before (beforeDraw (clearWithOpenGL_color l hw r g b a)) = false /\
    blendAfter before (clearWithOpenGL_color l hw r g b a) = false /\
    blendAfter before (clearWithOpenGL l hw) = false /\
    last (clearWithOpenGL_color l hw r g b a) (glDisable GL_BLEND)
      = glDrawArrays_fan 0 4.
Proof.
  intros l hw r g b a before.
  unfold clearWithOpenGL, clearWithOpenGL_color.
  rewrite meshVertices_length.
  repeat split; reflexivity.
Qed.

(** X23.  For a layer whose active crop is empty and whose size is
    positive and fits an [int], the texture coordinates of
    [drawWithOpenGL] are exactly (0,1), (0,0), (1,0), (1,1): the whole
    texture, V flipped. *)
Theorem texCoords_full_window :
  forall (l : LayerBase),
    let s := mDrawingState l in
    isEmpty (crop (active s)) = true ->
    0 < w (active s) < 2 ^ 31 ->
    0 < h (active s) < 2 ^ 31 ->
    texCoords l =
      [ (Float32.zero, Float32.one); (Float32.zero, Float32.zero);
        (Float32.one, Float32.zero); (Float32.one, Float32.one) ].
Proof.
  intros l s He Hw Hh. unfold texCoords, computeBounds. fold s.
  rewrite He. cbn [negb]. unfold Rect_wh. cbn [left top right bottom map fst snd].
  rewrite !to_u32_small by lia. rewrite !to_i32_small by lia.
  rewrite (div_zero_of_int _ Hw), (div_zero_of_int _ Hh).
  rewrite (div_of_int_self _ Hw), (div_of_int_self _ Hh).
  rewrite SFsub_one_zero, SFsub_one_one. reflexivity.
Qed.

End DrawProperties.


(** * The model on concrete inputs *)

#[local] Existing Instance android_constants.
#[local] Existing Instance sample_transform_ops.
#[local] Existing Instance sample_region_ops.
#[local] Existing Instance sample_surface_ops.
#[local] Existing Instance sample_point_ops.

Lemma sample_tx_set :
  forall (t : SampleTransform) (x y : float),
    tr_tx (tr_set t x y) = x.
Proof. intros. reflexivity. Qed.

Lemma sample_ty_set :
  forall (t : SampleTransform) (x y : float),
    tr_ty (tr_set t x y) = y.
Proof. intros. reflexivity. Qed.

(** C1, as stated, fails: [setMatrix] with the matrix the pending snapshot
    already holds, and [setTransparentRegionHint] with the region it
    already holds, return [true] and advance the sequence; and a second
    [setPosition] with the same NaN coordinate returns [true] again. *)
Lemma setMatrix_same_value_returns_true :
  sameAsPending (mCurrentState layer0) (SetMatrix sample_identity) /\
  call layer0 (SetMatrix sample_identity) <> (false, layer0) /\
  fst (call layer0 (SetMatrix sample_identity)) = true /\
  sequence (mCurrentState (snd (call layer0 (SetMatrix sample_identity))))
    <> sequence (mCurrentState layer0) /\
  sameAsPending (mCurrentState layer0) (SetTransparentRegionHint []) /\
  fst (call layer0 (SetTransparentRegionHint [])) = true /\
  fst (call (snd (call layer0 (SetTransparentRegionHint [])))
            (SetTransparentRegionHint [])) = true /\
  fst (call (snd (call layer0 (SetPosition S754_nan Float32.zero)))
            (SetPosition S754_nan Float32.zero)) = true.
Proof.
  cbv zeta. repeat split; try reflexivity; vm_compute; discriminate.
Qed.

Lemma comparing_mutators_noop_when_equal_witness :
  call layer0 (SetAlpha 255) = (false, layer0) /\
  fst (call layer0 (SetAlpha 128)) = true /\
  call (snd (call layer0 (SetAlpha 128))) (SetAlpha 128)
    = (false, snd (call layer0 (SetAlpha 128))).
Proof.
  assert (Hr : 0 <= flags (mCurrentState layer0) < 2 ^ 32)
    by (vm_compute; split; [discriminate|reflexivity]).
  assert (Hf : fitsParameters (Region := list Rect) (SetAlpha 128))
    by (vm_compute; split; [discriminate|reflexivity]).
  assert (Hd : ~ sameAsPending (mCurrentState layer0) (SetAlpha 128))
    by (vm_compute; discriminate).
  destruct (comparing_mutators_noop_when_equal layer0 (SetAlpha 255)
              sample_tx_set sample_ty_set Hr) as [H _].
  destruct (comparing_mutators_noop_when_equal layer0 (SetAlpha 128)
              sample_tx_set sample_ty_set Hr) as [H' _].
  destruct (H eq_refl) as (Hsame & _ & _).
  destruct (H' eq_refl) as (_ & Hdiff & Htwice).
  split; [apply Hsame; reflexivity|].
  split; [apply Hdiff; assumption|apply Htwice; exact I].
Defined.

(** C2, as stated, fails: [setSize] with a new size returns [true] and
    leaves the sequence where it was. *)
Lemma setSize_keeps_sequence :
  fst (setSize layer0 20 20) = true /\
  sequence (mCurrentState (snd (setSize layer0 20 20)))
    = sequence (mCurrentState layer0) /\
  sequence (mCurrentState (snd (setSize layer0 20 20)))
    <> sequence (mCurrentState layer0) + 1.
Proof.
  cbv zeta. repeat split; vm_compute; discriminate.
Qed.

Lemma changed_mutator_effect_witness :
  fst (call layer0 (SetLayer 3)) = true /\
  transactionPending (snd (call layer0 (SetLayer 3))) /\
  sequence (mCurrentState (snd (call layer0 (SetLayer 3)))) = 1.
Proof.
  cbv zeta.
  assert (Ht : fst (call layer0 (SetLayer 3)) = true) by reflexivity.
  destruct (changed_mutator_effect layer0 (SetLayer 3) Ht) as (Hp & Hb & _).
  split; [exact Ht|]. split; [exact Hp|].
  destruct (Hb eq_refl) as [_ Hs]. rewrite Hs.
  - reflexivity.
  - vm_compute. split; [discriminate|reflexivity].
Defined.

(** C3, as stated, fails: pending equals committed, no mutator has run
    since the commit and the input flags are 0, yet [doTransaction] returns
    the visible-region bit and writes a new committed snapshot. *)
Lemma doTransaction_idle_resize_pending :
  mCurrentState layer_resize_deferred = mDrawingState layer_resize_deferred /\
  Z.land 0 eVisibleRegion = 0 /\
  Z.land (fst (doTransaction layer_resize_deferred 0)) eVisibleRegion <> 0 /\
  mDrawingState (snd (doTransaction layer_resize_deferred 0))
    <> mDrawingState layer_resize_deferred.
Proof.
  cbv zeta. repeat split; try reflexivity; vm_compute; discriminate.
Qed.

Lemma doTransaction_idle_witness :
  fst (doTransaction layer0 0) = 0 /\
  mDrawingState (snd (doTransaction layer0 0)) = mDrawingState layer0.
Proof.
  cbv zeta.
  destruct (doTransaction_idle layer0 0
              eq_refl eq_refl (or_intror eq_refl)) as (H1 & _ & H2 & _).
  split; assumption.
Defined.

(** C4, as stated, fails: on a layer with committed alpha 255 whose
    pending alpha is 128 already, [setAlpha(128)] returns [false]. *)
Lemma setAlpha_pending_value_returns_false :
  alpha (mDrawingState layer_alpha_pending) = 255 /\
  alpha (mCurrentState layer_alpha_pending) = 128 /\
  fst (setAlpha layer_alpha_pending 128) = false.
Proof. repeat split; reflexivity. Qed.

Lemma mutators_leave_committed_state_witness :
  fst (setAlpha layer0 128) = true /\
  alpha (mDrawingState (snd (setAlpha layer0 128))) = 255 /\
  isVisible (snd (setAlpha layer0 128)) = isVisible layer0.
Proof.
  cbv zeta.
  destruct (mutators_leave_committed_state layer0)
    as (_ & _ & H).
  destruct (H eq_refl ltac:(vm_compute; discriminate)) as (H1 & _ & H3 & H4).
  auto.
Defined.

Lemma isVisible_iff_witness :
  isVisible layer0 = true /\
  isVisible (snd (doTransaction (snd (setAlpha layer0 0)) 0)) = false.
Proof.
  cbv zeta. split.
  - apply (proj1 (isVisible_iff layer0)).
    vm_compute. split; [reflexivity|discriminate].
  - apply (proj2 (isVisible_iff _)).
    reflexivity.
Defined.

Lemma doTransaction_sequence_changed_witness :
  let l := snd (setAlpha layer0 128) in
  Z.land (fst (doTransaction l 0)) eVisibleRegion = eVisibleRegion /\
  contentDirty (snd (doTransaction l 0)) = true.
Proof.
  cbv zeta.
  destruct (doTransaction_sequence_changed
              (snd (setAlpha layer0 128)) 0
              ltac:(vm_compute; discriminate)) as (H1 & H2 & _).
  split; assumption.
Defined.

Lemma setGeometry_blending_transform_witness :
  let l := snd (doTransaction (snd (setAlpha layer0 128)) 0) in
  hwc_blending (setGeometry l sample_display sample_descriptor)
    = HWC_BLENDING_PREMULT /\
  hwc_transform (setGeometry l sample_display sample_descriptor) = 0.
Proof.
  cbv zeta.
  destruct (setGeometry_blending_transform
              (snd (doTransaction
                      (snd (setAlpha layer0 128)) 0))
              sample_display sample_descriptor) as (_ & H2 & _ & H4).
  split.
  - apply H2. right. vm_compute. discriminate.
  - rewrite H4; reflexivity.
Defined.

Lemma getSurface_twice_aborts_witness :
  getSurface (fun _ => 42)
    (mkLayerBaseClient layer0 true (Some 42)) = Aborted.
Proof.
  cbv zeta.
  apply (proj1 (proj2 (getSurface_twice_aborts (fun _ => 42) layer0))).
  reflexivity.
Defined.

(** C8, as stated, fails for a count the [int32_t] counter cannot hold:
    after 2^31 notifications on a layer with no unlatched frame the
    counter is [INT32_MIN], not 2^31. *)
Lemma onFrameAvailable_counter_wraps :
  Layer.mQueuedFrames
    (Nat.iter (Z.to_nat (2 ^ 31)) Layer.onFrameAvailable idle_layer)
    = INT32_MIN /\
  Layer.mQueuedFrames
    (Nat.iter (Z.to_nat (2 ^ 31)) Layer.onFrameAvailable idle_layer)
    <> 2 ^ 31.
Proof.
  assert (Hr : INT32_MIN <= Layer.mQueuedFrames idle_layer <= INT32_MAX)
    by (split; discriminate).
  assert (Hw : Layer.mQueuedFrames
                 (Nat.iter (Z.to_nat (2 ^ 31)) Layer.onFrameAvailable idle_layer)
               = INT32_MIN).
  { rewrite (onFrameAvailable_iter (Z.to_nat (2 ^ 31)) idle_layer Hr).
    rewrite Z2Nat.id by (apply Z.pow_nonneg; lia).
    reflexivity. }
  split; [exact Hw|]. rewrite Hw. discriminate.
Qed.

Lemma latch_counting_witness :
  let l1 := fold_left Layer.produce
              ([sample_buffer 1; sample_buffer 2] ++ [sample_buffer 3])
              idle_layer in
  Layer.mQueuedFrames l1 = 3 /\
  Layer.mQueuedFrames (snd (Layer.latchBuffer (fun _ b => [Layer.buf_crop b]) l1)) = 2 /\
  Layer.mCurrentCrop (snd (Layer.latchBuffer (fun _ b => [Layer.buf_crop b]) l1))
    = mkRect 0 0 3 3 /\
  Layer.latchBuffer (fun _ b => [Layer.buf_crop b])
    (Layer.queueBuffer idle_layer (sample_buffer 1))
    = ([], Layer.queueBuffer idle_layer (sample_buffer 1)).
Proof.
  cbv zeta.
  assert (Hn : Z.of_nat (length ([sample_buffer 1; sample_buffer 2]
                                   ++ [sample_buffer 3])) <= INT32_MAX)
    by (vm_compute; discriminate).
  destruct (latch_counting (Transform := SampleTransform)
              (fun _ b => [Layer.buf_crop b]) idle_layer
              [sample_buffer 1; sample_buffer 2] (sample_buffer 3)
              eq_refl Hn) as (_ & H1 & H2 & _ & H4 & _ & _ & _ & H8 & _).
  split; [exact H1|]. split; [exact H2|]. split; [exact H4|].
  apply H8. reflexivity.
Defined.



(** ** Runs of the model *)

Example computeCrop_cropped :
  computeCrop layer_cropped sample_display = Some (mkRect 2 3 8 9).
Proof. vm_compute. reflexivity. Qed.

Example computeCrop_half_offscreen :
  computeCrop layer_cropped
    (mkDisplayDevice (mkRect 0 0 5 5) tr_default) = Some (mkRect 2 3 5 5).
Proof. vm_compute. reflexivity. Qed.

Example setPosition_nan_always_changes :
  fst (setPosition layer0 S754_nan Float32.zero) = true /\
  fst (setPosition (snd (setPosition layer0 S754_nan Float32.zero))
         S754_nan Float32.zero) = true.
Proof. split; reflexivity. Qed.

Example setFlags_hide :
  let r := setFlags layer0 1 1 in
  fst r = true /\ flags (mCurrentState (snd r)) = 1 /\
  isVisible (snd r) = true /\
  isVisible (snd (doTransaction (snd r) 0)) = false.
Proof. cbv zeta. repeat split; reflexivity. Qed.

Example inset_rounds_up :
  inset 5 (Float32.div (Float32.of_int 7) (Float32.of_int 3)) = Some 12.
Proof. vm_compute. reflexivity. Qed.

(** ** Further runs *)

Lemma computeCrop_exact_witness :
  computeCrop layer_cropped sample_display = Some (mkRect 2 3 8 9).
Proof.
  assert (He : isEmpty (clippedActiveCrop (mDrawingState layer_cropped)
                          (getViewport sample_display)) = false)
    by reflexivity.
  destruct (computeCrop_exact layer_cropped sample_display He) as [_ H].
  rewrite H.
  - reflexivity.
  - vm_compute. discriminate.
  - vm_compute. discriminate.
Defined.

Lemma requestTransaction_first_only_witness :
  fst (requestTransaction layer0) = true /\
  fst (requestTransaction (snd (requestTransaction layer0))) = false.
Proof.
  assert (He : eTransactionNeeded <> 0) by (vm_compute; discriminate).
  destruct (requestTransaction_first_only layer0 He) as (H1 & _ & H3).
  split; [apply H1; reflexivity|exact H3].
Defined.

Lemma mutation_observed_once_witness :
  fst (getTransactionFlags (snd (call layer0 (SetLayer 3))) eTransactionNeeded)
    = 1.
Proof.
  destruct (mutation_observed_once layer0 (SetLayer 3)) as [_ H].
  destruct (H eq_refl) as [H1 _]. exact H1.
Defined.

Lemma setFlags_masked_bits_witness :
  Z.testbit (flags (mCurrentState (snd (setFlags layer0 1 1)))) 0 = true.
Proof.
  rewrite (setFlags_masked_bits layer0 1 1 0) by lia. reflexivity.
Defined.

Lemma doTransaction_commits_witness :
  active (mCurrentState (snd (doTransaction (snd (setSize layer0 20 20)) 0)))
    = mkGeometry 20 20 Rect_invalid.
Proof.
  destruct (doTransaction_commits (snd (setSize layer0 20 20)) 0)
    as (_ & H & _).
  destruct (H eq_refl) as [H1 _]. rewrite H1. reflexivity.
Defined.

Lemma doTransaction_twice_witness :
  doTransaction (snd (doTransaction (snd (setSize layer0 20 20)) 0)) 2
    = (2, snd (doTransaction (snd (setSize layer0 20 20)) 0)).
Proof.
  apply (doTransaction_twice (snd (setSize layer0 20 20)) 0 2). reflexivity.
Defined.

Lemma mutation_then_commit_witness :
  Z.land (fst (doTransaction (snd (call layer0 (SetAlpha 128))) 0))
         eVisibleRegion = eVisibleRegion /\
  contentDirty (snd (doTransaction (snd (call layer0 (SetAlpha 128))) 0))
    = true.
Proof.
  assert (Hs : sequence (mCurrentState layer0) = sequence (mDrawingState layer0))
    by reflexivity.
  assert (Hr : INT32_MIN <= sequence (mCurrentState layer0) <= INT32_MAX)
    by (vm_compute; split; discriminate).
  assert (Ht : fst (call layer0 (SetAlpha 128)) = true) by reflexivity.
  assert (Hb : bumps (SetAlpha 128 : Mutator (list Rect)) = true)
    by reflexivity.
  destruct (mutation_then_commit layer0 (SetAlpha 128) 0 Hs Hr Ht Hb)
    as (H1 & H2 & _).
  split; assumption.
Defined.

Lemma forceVisibilityTransaction_seen_witness :
  contentDirty (snd (doTransaction (forceVisibilityTransaction layer0) 0))
    = true.
Proof.
  assert (Hs : sequence (mCurrentState layer0) = sequence (mDrawingState layer0))
    by reflexivity.
  assert (Hr : INT32_MIN <= sequence (mCurrentState layer0) <= INT32_MAX)
    by (vm_compute; split; discriminate).
  destruct (forceVisibilityTransaction_seen layer0 0 Hs Hr)
    as (_ & _ & _ & _ & H).
  exact H.
Defined.

Lemma resize_deferred_to_commit_witness :
  fst (setSize layer0 20 20) = true /\
  fst (doTransaction (snd (setSize layer0 20 20)) 1) = 1.
Proof.
  assert (Hs : mCurrentState layer0 = mDrawingState layer0) by reflexivity.
  assert (Ha : requested (mCurrentState layer0) = active (mCurrentState layer0))
    by reflexivity.
  assert (Hn : 20 <> w (requested (mCurrentState layer0)) \/
               20 <> h (requested (mCurrentState layer0)))
    by (left; vm_compute; discriminate).
  destruct (resize_deferred_to_commit layer0 20 20 1 Hs Ha Hn)
    as (H1 & _ & _ & _ & H5).
  split; [exact H1|].
  assert (Hd : Z.land 1 eDontUpdateGeometryState <> 0)
    by (vm_compute; discriminate).
  destruct (H5 Hd) as [H _]. exact H.
Defined.

Lemma isVisible_after_commit_witness :
  isVisible (snd (doTransaction (snd (setFlags layer0 eLayerHidden eLayerHidden))
                                0)) = false.
Proof.
  assert (He : 0 < eLayerHidden < 2 ^ 32) by (vm_compute; split; reflexivity).
  destruct (isVisible_after_commit layer0 0 He) as (_ & _ & H).
  exact H.
Defined.

Lemma initStates_settled_witness :
  isVisible (initStates (LayerBase_new true) 10 10 0) = true /\
  doTransaction (initStates (LayerBase_new true) 10 10 0) 0
    = (0, initStates (LayerBase_new true) 10 10 0).
Proof.
  assert (He : eLayerHidden <> 0) by (vm_compute; discriminate).
  destruct (initStates_settled (LayerBase_new true) 10 10 0 0 He)
    as (_ & _ & _ & _ & _ & _ & _ & H & _ & H').
  split; [apply H; reflexivity|exact H'].
Defined.



Lemma computeCrop_identity_transform_witness :
  computeCrop layer_full_crop sample_display = Some (mkRect 0 0 10 10).
Proof.
  assert (Ht : tr_transform (transform (mDrawingState layer_full_crop))
                 (crop (active (mDrawingState layer_full_crop)))
               = crop (active (mDrawingState layer_full_crop)))
    by reflexivity.
  assert (Hi : tr_transform
                 (tr_inverse (transform (mDrawingState layer_full_crop)))
                 (intersect (crop (active (mDrawingState layer_full_crop)))
                            (getViewport sample_display))
               = intersect (crop (active (mDrawingState layer_full_crop)))
                           (getViewport sample_display))
    by reflexivity.
  assert (HW : right (Rect_wh (w (active (mDrawingState layer_full_crop)))
                              (h (active (mDrawingState layer_full_crop))))
               <= 2 ^ 24) by (vm_compute; discriminate).
  assert (HH : bottom (Rect_wh (w (active (mDrawingState layer_full_crop)))
                               (h (active (mDrawingState layer_full_crop))))
               <= 2 ^ 24) by (vm_compute; discriminate).
  destruct (computeCrop_identity_transform layer_full_crop sample_display
              Ht Hi HW HH) as [_ H].
  rewrite H.
  - reflexivity.
  - reflexivity.
  - reflexivity.
  - vm_compute. repeat split; discriminate.
Defined.

Lemma constructed_sequences_distinct_witness :
  constructed_sequences (Transform := SampleTransform) (Region := list Rect)
    3 sSequence_initial = [1; 2; 3] /\
  NoDup (constructed_sequences (Transform := SampleTransform)
           (Region := list Rect) 3 sSequence_initial).
Proof.
  split; [reflexivity|].
  apply (constructed_sequences_distinct 3). vm_compute. reflexivity.
Defined.

Lemma needsFiltering_after_commit_witness :
  needsFiltering (snd (doTransaction layer_scaled 0)) false = true /\
  needsFiltering (snd (doTransaction layer0 0)) false = false.
Proof.
  destruct (needsFiltering_after_commit layer_scaled 0 false) as [H _].
  destruct (needsFiltering_after_commit layer0 0 false) as [_ H'].
  split.
  - rewrite H; [reflexivity|vm_compute; discriminate].
  - rewrite H'; reflexivity.
Defined.

Lemma drawWithOpenGL_blending_witness :
  blendAfter false (beforeDraw (drawWithOpenGL layer_translucent sample_screen))
    = true /\
  blendAfter true (drawWithOpenGL layer_translucent sample_screen) = false.
Proof.
  destruct (drawWithOpenGL_blending layer_translucent sample_screen false None)
    as (H1 & _ & _).
  destruct (drawWithOpenGL_blending layer_translucent sample_screen true None)
    as (_ & _ & H3).
  split; [|exact H3].
  apply H1. left. vm_compute. reflexivity.
Defined.

Lemma blending_paths_agree_witness :
  hwc_blending (setGeometry layer_translucent sample_display sample_descriptor)
    <> HWC_BLENDING_NONE.
Proof.
  assert (Ha : 0 <= alpha (mDrawingState layer_translucent) <= 255)
    by (vm_compute; split; discriminate).
  destruct (blending_paths_agree layer_translucent sample_screen
              sample_descriptor false None Ha) as [H _].
  apply H. reflexivity.
Defined.

Lemma texCoords_full_window_witness :
  texCoords layer0 =
    [ (Float32.zero, Float32.one); (Float32.zero, Float32.zero);
      (Float32.one, Float32.zero); (Float32.one, Float32.one) ].
Proof.
  apply (texCoords_full_window layer0).
  - reflexivity.
  - vm_compute. split; reflexivity.
  - vm_compute. split; reflexivity.
Defined.

Example drawWithOpenGL_opaque :
  drawWithOpenGL layer0 sample_screen =
    [ glColor4f Float32.one Float32.one Float32.one Float32.one;
      glTexEnvx_mode GL_REPLACE;
      glDisable GL_BLEND;
      glEnableClientState_texcoord;
      glTexCoordPointer
        [ (Float32.zero, Float32.one); (Float32.zero, Float32.zero);
          (Float32.one, Float32.zero); (Float32.one, Float32.one) ];
      glVertexPointer
        [ (Float32.zero, Float32.of_int 1080);
          (Float32.zero, Float32.of_int 1070);
          (Float32.of_int 10, Float32.of_int 1070);
          (Float32.of_int 10, Float32.of_int 1080) ];
      glDrawArrays_fan 0 4;
      glDisableClientState_texcoord;
      glDisable GL_BLEND ].
Proof. vm_compute. reflexivity. Qed.
